(** * IEI WT61P803 PUZZLE MCU hwmon driver

    A shallow embedding of [drivers/hwmon/iei-wt61p803-puzzle-hwmon.c]:
    the four MCU exchanges (read all temperatures, read fan speed, write
    PWM, read PWM), the hwmon read / write / visibility callbacks, the
    thermal cooling-device callbacks, and probe with the binding of the
    firmware children to cooling devices.

    C integers are modelled as [Z] with the conversions written out, the
    response buffer and the presence vector as lists indexed like C arrays,
    and every driver function as a computation over the device context that
    also records which bus commands were issued and which bytes of the
    response buffer were read, each tagged with the state of the mutex at
    that moment. *)

From Stdlib Require Import String Ascii DecimalString.
From Stdlib Require Import ZArith List Bool Lia.
Import ListNotations.
Local Open Scope Z_scope.

(** ** C integer conversions and errno values *)

(** Conversion of an integer to [unsigned char]. *)
Definition u8 (x : Z) : Z := x mod 256.
Arguments u8 x : simpl never.

(** [unsigned long] to [long] and back on the 64-bit target. *)
Definition ulong_to_long (x : Z) : Z := if x <? 2 ^ 63 then x else x - 2 ^ 64.
Definition long_to_ulong (x : Z) : Z := x mod 2 ^ 64.

Definition EIO : Z := 5.
Definition EINVAL : Z := 22.

(** File modes [0444] and [0644] (octal). *)
Definition mode_0444 : Z := 4 * 64 + 4 * 8 + 4.
Definition mode_0644 : Z := 6 * 64 + 4 * 8 + 4.
(** The three write-permission bits, [0222]. *)
Definition mode_0222 : Z := 2 * 64 + 2 * 8 + 2.

(** [a[i]] on a C array: defined only inside the array. *)
Definition index {A : Type} (a : list A) (i : Z) : option A :=
  if i <? 0 then None else nth_error a (Z.to_nat i).
Arguments index {A} a i : simpl never.

(** ** Constants of the driver *)

Definition IEI_WT61P803_PUZZLE_HWMON_MAX_PWM : Z := 2.
Definition IEI_WT61P803_PUZZLE_HWMON_MAX_PWM_VAL : Z := 255.

(** The command bytes come from the header of the parent MFD driver,
    [linux/mfd/iei-wt61p803-puzzle.h]; the driver is parameterised by them.
    [IEI_WT61P803_PUZZLE_CMD_FAN_PWM] and [IEI_WT61P803_PUZZLE_CMD_FAN_RPM]
    are the two function-like macros of that header. *)
Record puzzle_commands : Type := {
  IEI_WT61P803_PUZZLE_CMD_HEADER_START : Z;
  IEI_WT61P803_PUZZLE_CMD_TEMP : Z;
  IEI_WT61P803_PUZZLE_CMD_TEMP_ALL : Z;
  IEI_WT61P803_PUZZLE_CMD_FAN : Z;
  IEI_WT61P803_PUZZLE_CMD_FAN_RPM : Z -> Z;
  IEI_WT61P803_PUZZLE_CMD_FAN_PWM_READ : Z;
  IEI_WT61P803_PUZZLE_CMD_FAN_PWM_WRITE : Z;
  IEI_WT61P803_PUZZLE_CMD_FAN_PWM : Z -> Z;
  IEI_WT61P803_PUZZLE_CMD_RESPONSE_OK : Z;
  IEI_WT61P803_PUZZLE_CHECKSUM_RESPONSE_OK : Z
}.

(** [enum hwmon_sensor_types] of [linux/hwmon.h]. *)
Inductive hwmon_sensor_types : Type :=
| hwmon_chip | hwmon_temp | hwmon_in | hwmon_curr | hwmon_power
| hwmon_energy | hwmon_humidity | hwmon_fan | hwmon_pwm | hwmon_intrusion.

(** The attribute selectors of [linux/hwmon.h] the driver compares with. *)
Record hwmon_attributes : Type := {
  hwmon_pwm_input : Z;
  hwmon_fan_input : Z;
  hwmon_temp_input : Z
}.

(** ** Unit conversions (the two macros) *)

(** [#define raw_temp_to_milidegree_celsius(x) (((x) - 0x80) * 1000)] *)
Definition raw_temp_to_milidegree_celsius (x : Z) : Z := (x - 128) * 1000.

(** [#define raw_fan_val_to_rpm(x, y) ((((x) << 8 | (y)) / 2) * 60)];
    [<<] binds tighter than [|], and [/] is C's truncating division. *)
Definition raw_fan_val_to_rpm (x y : Z) : Z :=
  Z.quot (Z.lor (Z.shiftl x 8) y) 2 * 60.

(** ** Device context, bus transport and observations *)

(** What one call of [iei_wt61p803_puzzle_write_command] leaves behind: the
    state of the MCU, the returned [int], the contents of [response_data]
    and the value stored through [retlen]. *)
Record bus_result (MCU : Type) : Type := {
  bus_mcu : MCU;
  bus_ret : Z;
  bus_buf : list Z;
  bus_len : Z
}.
Arguments bus_mcu {MCU} _.
Arguments bus_ret {MCU} _.
Arguments bus_buf {MCU} _.
Arguments bus_len {MCU} _.
Arguments Build_bus_result {MCU} _ _ _ _.

(** [struct iei_wt61p803_puzzle_hwmon]; [lock] is [true] while the mutex is
    held.  The [cdev] pointers are only written by probe and are left out. *)
Record iei_wt61p803_puzzle_hwmon (MCU : Type) : Type := {
  mcu : MCU;
  response_buffer : list Z;
  thermal_cooling_dev_present : list bool;
  lock : bool
}.
Arguments mcu {MCU} _.
Arguments response_buffer {MCU} _.
Arguments thermal_cooling_dev_present {MCU} _.
Arguments lock {MCU} _.
Arguments Build_iei_wt61p803_puzzle_hwmon {MCU} _ _ _ _.

(** [struct iei_wt61p803_puzzle_thermal_cooling_device]; the back pointer
    [mcu_hwmon] is the device context the callbacks run on. *)
Record iei_wt61p803_puzzle_thermal_cooling_device : Type := {
  name : list Z;
  pwm_channel : Z;
  cooling_levels : list Z
}.

(** An access to the shared response buffer: the transport filling it for a
    command, or the driver reading one byte of it.  [locked] is the state of
    the mutex when the access happens. *)
Inductive event : Type :=
| EvCommand (locked : bool) (cmd : list Z)
| EvRespRead (locked : bool) (i : Z).

Definition event_locked (e : event) : bool :=
  match e with
  | EvCommand l _ => l
  | EvRespRead l _ => l
  end.

(** Every access of a trace happened under the mutex. *)
Definition trace_locked (tr : list event) : bool := forallb event_locked tr.

(** The commands handed to the transport, in order. *)
Fixpoint commands_of (tr : list event) : list (list Z) :=
  match tr with
  | [] => []
  | EvCommand _ cmd :: tr' => cmd :: commands_of tr'
  | EvRespRead _ _ :: tr' => commands_of tr'
  end.

(** A C computation either finishes with a value or runs into undefined
    behaviour (an array access outside its bounds, an uninitialised read). *)
Inductive result (A : Type) : Type :=
| Done (a : A)
| Undefined.
Arguments Done {A} a.
Arguments Undefined {A}.

Module DriverMonad.

Definition M (S A : Type) : Type := S -> result A * S * list event.

Definition ret {S A : Type} (a : A) : M S A := fun s => (Done a, s, []).

Definition bind {S A B : Type} (m : M S A) (f : A -> M S B) : M S B :=
  fun s =>
    match m s with
    | (Done a, s1, t1) =>
        match f a s1 with
        | (r, s2, t2) => (r, s2, t1 ++ t2)
        end
    | (Undefined, s1, t1) => (Undefined, s1, t1)
    end.

Definition undefined {S A : Type} : M S A := fun s => (Undefined, s, []).

End DriverMonad.
Import DriverMonad.

Declare Scope driver_scope.
Delimit Scope driver_scope with driver.
Notation "x <- c1 ;; c2" := (bind c1 (fun x => c2))
  (at level 100, c1 at next level, right associativity) : driver_scope.
Notation "' pat <- c1 ;; c2" := (bind c1 (fun x => match x with pat => c2 end))
  (at level 100, pat pattern, c1 at next level, right associativity) : driver_scope.
Notation "c1 ;; c2" := (bind c1 (fun _ => c2))
  (at level 100, right associativity) : driver_scope.

(** Projections of a run. *)
Definition outcome {S A : Type} (r : result A * S * list event) : result A := fst (fst r).
Definition final {S A : Type} (r : result A * S * list event) : S := snd (fst r).
Definition trace {S A : Type} (r : result A * S * list event) : list event := snd r.

(** ** A concrete command set and two test MCUs

    Used to run the driver on examples.  The command bytes are the ASCII
    letters of the MCU's command set ('@' opens a frame, 'T' and 'F' select
    temperatures and fans, 'A' all sensors, 'W' / 'Z' write / read a PWM,
    '0' acknowledges); fan tachometers are lettered from 'A' and PWM outputs
    numbered from '0'. *)
Definition wt61p803_commands : puzzle_commands := {|
  IEI_WT61P803_PUZZLE_CMD_HEADER_START := 64;
  IEI_WT61P803_PUZZLE_CMD_TEMP := 84;
  IEI_WT61P803_PUZZLE_CMD_TEMP_ALL := 65;
  IEI_WT61P803_PUZZLE_CMD_FAN := 70;
  IEI_WT61P803_PUZZLE_CMD_FAN_RPM := fun x => 65 + x;
  IEI_WT61P803_PUZZLE_CMD_FAN_PWM_READ := 90;
  IEI_WT61P803_PUZZLE_CMD_FAN_PWM_WRITE := 87;
  IEI_WT61P803_PUZZLE_CMD_FAN_PWM := fun x => 48 + x;
  IEI_WT61P803_PUZZLE_CMD_RESPONSE_OK := 48;
  IEI_WT61P803_PUZZLE_CHECKSUM_RESPONSE_OK := 112
|}.

(** [hwmon_pwm_input] opens [enum hwmon_pwm_attributes] and is followed by
    [hwmon_pwm_enable]; the fan and temp enumerations open with their
    [enable] attribute, followed by [input]. *)
Definition linux_hwmon_attributes : hwmon_attributes := {|
  hwmon_pwm_input := 0;
  hwmon_fan_input := 1;
  hwmon_temp_input := 1
|}.
Definition hwmon_pwm_enable : Z := 1.

(** The transport copies a received frame over the start of the caller's
    buffer. *)
Definition store_reply (reply buf : list Z) : list Z :=
  reply ++ skipn (length reply) buf.

Definition ETIMEDOUT : Z := 110.

(** A scripted MCU: it answers the successive commands with the frames of
    its script, whatever the command, and times out when the script is
    exhausted. *)
Definition scripted_transport (script : list (list Z)) (cmd buf : list Z)
  : bus_result (list (list Z)) :=
  match script with
  | reply :: rest =>
      Build_bus_result rest 0 (store_reply reply buf) (Z.of_nat (length reply))
  | [] => Build_bus_result [] (- ETIMEDOUT) buf 0
  end.

(** An MCU that keeps the duty of every PWM output: a PWM write stores the
    duty byte and is acknowledged, a PWM read reports the stored duty.  Its
    state maps a PWM selector byte to the duty. *)
Definition echo_transport (duty : Z -> Z) (cmd buf : list Z)
  : bus_result (Z -> Z) :=
  match cmd with
  | [h; f; op; p; d; _] =>
      if (h =? 64) && (f =? 70) && (op =? 87)
      then Build_bus_result (fun q => if q =? p then d else duty q)
             0 (store_reply [64; 48; 112] buf) 3
      else Build_bus_result duty (- ETIMEDOUT) buf 0
  | [h; f; op; p; _] =>
      if (h =? 64) && (f =? 70) && (op =? 90)
      then Build_bus_result duty
             0 (store_reply [64; 70; 90; duty p; 0] buf) 5
      else Build_bus_result duty (- ETIMEDOUT) buf 0
  | _ => Build_bus_result duty (- ETIMEDOUT) buf 0
  end.

(** A freshly probed device context: zeroed 512-byte buffer, mutex free. *)
Definition fresh_hwmon {MCU : Type} (m : MCU) (present : list bool)
  : iei_wt61p803_puzzle_hwmon MCU :=
  Build_iei_wt61p803_puzzle_hwmon m (repeat 0 512) present false.

(** *** Frames and records of the scenarios *)

(** Scenario S1: the MCU reports the raw bytes 0xA0 and 0x70. *)
Definition temp_frame : list Z := [64; 84; 64; 50; 160; 112; 0].
(** Scenario S2: tachometer bytes 0x01, 0x90 for fan channel 3. *)
Definition fan_frame : list Z := [64; 70; 68; 1; 144; 0; 0].
(** Scenario S5: a temperature frame cut to six bytes. *)
Definition short_temp_frame : list Z := [64; 84; 64; 50; 160; 112].
(** An acknowledgement whose checksum byte is wrong. *)
Definition bad_ack_frame : list Z := [64; 48; 113].

(** The cooling record of PWM channel 0, as probe builds it for a firmware
    node with [reg = 0] and [cooling-levels = 0, 64, 128, 255]; the name is
    the text wt61p803_puzzle_0. *)
Definition cooling_device_0 : iei_wt61p803_puzzle_thermal_cooling_device := {|
  name := [119; 116; 54; 49; 112; 56; 48; 51; 95; 112; 117; 122; 122; 108;
           101; 95; 48];
  pwm_channel := 0;
  cooling_levels := [0; 64; 128; 255]
|}.

(** ** Probe: firmware nodes, host frameworks and the state they build *)

Definition ENOMEM : Z := 12.

(** [THERMAL_NAME_LENGTH] of [linux/thermal.h]. *)
Definition THERMAL_NAME_LENGTH : Z := 20.

(** [a[i] = v] on a C array: defined only inside the array. *)
Definition store {A : Type} (a : list A) (i : Z) (v : A) : option (list A) :=
  if (i <? 0) || (Z.of_nat (length a) <=? i) then None
  else Some (firstn (Z.to_nat i) a ++ v :: skipn (Z.to_nat (i + 1)) a).
Arguments store {A} a i v : simpl never.

(** The characters of a C string, as [char] codes. *)
Definition cstring (s : string) : list Z :=
  map (fun a => Z.of_N (N_of_ascii a)) (list_ascii_of_string s).

(** An [int] printed by [%d]. *)
Definition decimal (z : Z) : string := NilEmpty.string_of_int (Z.to_int z).

(** A [u32] read as an [int]. *)
Definition int_of_u32 (x : Z) : Z := if x <? 2 ^ 31 then x else x - 2 ^ 32.

(** [snprintf(cdev->name, THERMAL_NAME_LENGTH, "wt61p803_puzzle_%d",
    pwm_channel)]: the [u32] goes through [%d], and at most
    [THERMAL_NAME_LENGTH - 1] characters are kept. *)
Definition cooling_device_name (pwm_channel : Z) : list Z :=
  firstn (Z.to_nat (THERMAL_NAME_LENGTH - 1))
    (cstring ("wt61p803_puzzle_" ++ decimal (int_of_u32 pwm_channel))).

(** The firmware-property calls of [linux/property.h] on a child node: each
    yields the returned [int], and the first and the last also what they
    store through their output argument. *)
Record firmware_api (fwnode_handle : Type) : Type := {
  fwnode_property_read_u32 : fwnode_handle -> string -> Z * Z;
  fwnode_property_count_u8 : fwnode_handle -> string -> Z;
  fwnode_property_read_u8_array : fwnode_handle -> string -> Z -> Z * list Z
}.
Arguments fwnode_property_read_u32 {fwnode_handle} _ _ _.
Arguments fwnode_property_count_u8 {fwnode_handle} _ _ _.
Arguments fwnode_property_read_u8_array {fwnode_handle} _ _ _ _.

(** [IS_ERR] of [linux/err.h] on a pointer read as a [long]: the last
    [MAX_ERRNO] = 4095 addresses are error codes, and [PTR_ERR] is the
    pointer itself. *)
Definition IS_ERR (p : Z) : bool := (-4095 <=? p) && (p <? 0).

(** The managed-resource calls of the host: the two allocators say whether
    they returned memory; the two registrations yield the returned pointer,
    read as a [long].  The hwmon registration receives the device context as
    it is at the call. *)
Record host_api (MCU HOST : Type) : Type := {
  devm_kzalloc : HOST -> HOST * bool;
  devm_kmalloc_array : HOST -> Z -> Z -> HOST * bool;
  devm_thermal_of_cooling_device_register :
    HOST -> iei_wt61p803_puzzle_thermal_cooling_device -> HOST * Z;
  devm_hwmon_device_register_with_info :
    HOST -> iei_wt61p803_puzzle_hwmon MCU -> HOST * Z
}.
Arguments devm_kzalloc {MCU HOST} _ _.
Arguments devm_kmalloc_array {MCU HOST} _ _ _ _.
Arguments devm_thermal_of_cooling_device_register {MCU HOST} _ _ _.
Arguments devm_hwmon_device_register_with_info {MCU HOST} _ _ _.

(** The calls of probe that carry data out of the driver, each with its
    arguments at the moment of the call. *)
Inductive host_call : Type :=
| HcKmallocArray (n size : Z)
| HcReadLevels (nval : Z)
| HcHwmonRegister (present : list bool)
| HcCoolingRegister (devdata : iei_wt61p803_puzzle_thermal_cooling_device).

Definition is_hwmon_register (c : host_call) : bool :=
  match c with
  | HcHwmonRegister _ => true
  | _ => false
  end.

(** The records handed to the thermal framework, in the order of the
    calls. *)
Fixpoint cooling_registrations (cs : list host_call)
  : list iei_wt61p803_puzzle_thermal_cooling_device :=
  match cs with
  | [] => []
  | HcCoolingRegister d :: cs' => d :: cooling_registrations cs'
  | _ :: cs' => cooling_registrations cs'
  end.

(** What probe works on: the device context behind [mcu_hwmon], its [cdev]
    pointer array ([None] for [NULL]), the host, and the calls made so
    far. *)
Record probe_state (MCU HOST : Type) : Type := {
  drvdata : iei_wt61p803_puzzle_hwmon MCU;
  cdev : list (option iei_wt61p803_puzzle_thermal_cooling_device);
  host : HOST;
  calls : list host_call
}.
Arguments drvdata {MCU HOST} _.
Arguments cdev {MCU HOST} _.
Arguments host {MCU HOST} _.
Arguments calls {MCU HOST} _.
Arguments Build_probe_state {MCU HOST} _ _ _ _.

(** How probe ends: without a device context when its allocation failed,
    otherwise with the returned [int] and the state reached. *)
Inductive probe_outcome (MCU HOST : Type) : Type :=
| NoContext (ret_ : Z) (h : HOST)
| Probed (r : result Z) (st : probe_state MCU HOST).
Arguments NoContext {MCU HOST} _ _.
Arguments Probed {MCU HOST} _ _.

(** *** A device-tree node and a host, for running probe

    A node has an optional [reg] and an optional [cooling-levels] array; the
    property calls answer as the firmware layer does: [-EINVAL] for a
    missing property, [-EOVERFLOW] when more bytes are asked for than the
    array holds. *)
Record dt_node : Type := {
  dt_reg : option Z;
  dt_cooling_levels : option (list Z)
}.

Definition EOVERFLOW : Z := 75.

Definition dt_api : firmware_api dt_node := {|
  fwnode_property_read_u32 := fun n prop =>
    match (if String.eqb prop "reg" then dt_reg n else None) with
    | Some v => (0, v)
    | None => (- EINVAL, 0)
    end;
  fwnode_property_count_u8 := fun n prop =>
    match (if String.eqb prop "cooling-levels" then dt_cooling_levels n else None) with
    | Some l => Z.of_nat (length l)
    | None => - EINVAL
    end;
  fwnode_property_read_u8_array := fun n prop nval =>
    match (if String.eqb prop "cooling-levels" then dt_cooling_levels n else None) with
    | Some l =>
        if nval <=? Z.of_nat (length l)
        then (0, firstn (Z.to_nat nval) l)
        else (- EOVERFLOW, [])
    | None => (- EINVAL, [])
    end
|}.

(** A host whose state is the number of allocations that will still
    succeed; its registrations always succeed, returning some address. *)
Definition budget_host (MCU : Type) : host_api MCU nat := {|
  devm_kzalloc := fun h =>
    match h with O => (O, false) | S h' => (h', true) end;
  devm_kmalloc_array := fun h _ _ =>
    match h with O => (O, false) | S h' => (h', true) end;
  devm_thermal_of_cooling_device_register := fun h _ => (h, 4096);
  devm_hwmon_device_register_with_info := fun h _ => (h, 8192)
|}.

(** Firmware children: scenario S4 ([reg] 0 with four cooling levels), a
    second fan on PWM 1, scenario S6 ([reg] 1 without cooling levels), and
    a node whose cooling-levels array has 256 entries. *)
Definition fan_node_0 : dt_node :=
  {| dt_reg := Some 0; dt_cooling_levels := Some [0; 64; 128; 255] |}.
Definition fan_node_1 : dt_node :=
  {| dt_reg := Some 1; dt_cooling_levels := Some [0; 255] |}.
Definition fan_node_1_no_levels : dt_node :=
  {| dt_reg := Some 1; dt_cooling_levels := None |}.
Definition fan_node_1_256_levels : dt_node :=
  {| dt_reg := Some 1; dt_cooling_levels := Some (repeat 7 256) |}.
(** A node that names a third PWM. *)
Definition fan_node_2 : dt_node :=
  {| dt_reg := Some 2; dt_cooling_levels := Some [0; 255] |}.

(** ** The driver *)

Section Driver.

Local Open Scope driver_scope.

(** The command bytes of [linux/mfd/iei-wt61p803-puzzle.h] and the attribute
    selectors of [linux/hwmon.h]. *)
Variable cmds : puzzle_commands.
Variable attrs : hwmon_attributes.

(** The MCU behind [mcu_hwmon->mcu] and the bus transport of the parent
    driver, [iei_wt61p803_puzzle_write_command(mcu, cmd, size,
    response_data, retlen)]: from the MCU, the command array (whose length
    is [size]) and the current contents of [response_data] it yields a
    [bus_result]. *)
Variable MCU : Type.
Variable iei_wt61p803_puzzle_write_command :
  MCU -> list Z -> list Z -> bus_result MCU.

Local Abbreviation hwmon := (iei_wt61p803_puzzle_hwmon MCU).
Local Abbreviation Drv := (M hwmon).

(** *** Primitive steps on the device context

    Every callback runs to its end before the next one starts, so
    [mutex_lock] never has to wait here: it only marks the mutex as held. *)

Definition mutex_lock : Drv unit :=
  fun s => (Done tt,
            Build_iei_wt61p803_puzzle_hwmon
              (mcu s) (response_buffer s) (thermal_cooling_dev_present s) true,
            []).

Definition mutex_unlock : Drv unit :=
  fun s => (Done tt,
            Build_iei_wt61p803_puzzle_hwmon
              (mcu s) (response_buffer s) (thermal_cooling_dev_present s) false,
            []).

(** The device context after the transport answered with [r]. *)
Definition after_bus (s : hwmon) (r : bus_result MCU) : hwmon :=
  Build_iei_wt61p803_puzzle_hwmon
    (bus_mcu r) (bus_buf r) (thermal_cooling_dev_present s) (lock s).

(** [ret = iei_wt61p803_puzzle_write_command(mcu_hwmon->mcu, cmd,
    sizeof(cmd), resp_buf, &reply_size)]: yields [(ret, reply_size)]. *)
Definition write_command (cmd : list Z) : Drv (Z * Z) :=
  fun s =>
    let r := iei_wt61p803_puzzle_write_command (mcu s) cmd (response_buffer s) in
    (Done (bus_ret r, bus_len r), after_bus s r, [EvCommand (lock s) cmd]).

(** [resp_buf[i]], undefined outside the buffer. *)
Definition resp_buf (i : Z) : Drv Z :=
  fun s =>
    match index (response_buffer s) i with
    | Some b => (Done b, s, [EvRespRead (lock s) i])
    | None => (Undefined, s, [EvRespRead (lock s) i])
    end.

(** *** The four exchanges

    A reading function yields [(ret, out)]: the returned [int] and what was
    stored through the [long *value] argument, [None] when nothing was. *)

Definition temp_sensor_ntc_cmd : list Z :=
  [u8 (IEI_WT61P803_PUZZLE_CMD_HEADER_START cmds);
   u8 (IEI_WT61P803_PUZZLE_CMD_TEMP cmds);
   u8 (IEI_WT61P803_PUZZLE_CMD_TEMP_ALL cmds);
   0].

Definition iei_wt61p803_puzzle_read_temp_sensor (channel : Z)
  : Drv (Z * option Z) :=
  mutex_lock ;;
  ' (ret_, reply_size) <- write_command temp_sensor_ntc_cmd ;;
  res <- (if negb (ret_ =? 0) then ret (ret_, None)
          else if negb (reply_size =? 7) then ret (- EIO, None)
          else
            (* Check the number of NTC values *)
            b3 <- resp_buf 3 ;;
            if negb (b3 =? 50) then ret (- EIO, None)
            else
              raw <- resp_buf (4 + channel) ;;
              ret (0, Some (raw_temp_to_milidegree_celsius raw))) ;;
  mutex_unlock ;;
  ret res.

Definition fan_speed_cmd (channel : Z) : list Z :=
  [u8 (IEI_WT61P803_PUZZLE_CMD_HEADER_START cmds);
   u8 (IEI_WT61P803_PUZZLE_CMD_FAN cmds);
   u8 (IEI_WT61P803_PUZZLE_CMD_FAN_RPM cmds channel);
   0].

Definition iei_wt61p803_puzzle_read_fan_speed (channel : Z)
  : Drv (Z * option Z) :=
  mutex_lock ;;
  ' (ret_, reply_size) <- write_command (fan_speed_cmd channel) ;;
  res <- (if negb (ret_ =? 0) then ret (ret_, None)
          else if negb (reply_size =? 7) then ret (- EIO, None)
          else
            hi <- resp_buf 3 ;;
            lo <- resp_buf 4 ;;
            ret (0, Some (raw_fan_val_to_rpm hi lo))) ;;
  mutex_unlock ;;
  ret res.

Definition pwm_set_cmd (channel pwm_set_val : Z) : list Z :=
  [u8 (IEI_WT61P803_PUZZLE_CMD_HEADER_START cmds);
   u8 (IEI_WT61P803_PUZZLE_CMD_FAN cmds);
   u8 (IEI_WT61P803_PUZZLE_CMD_FAN_PWM_WRITE cmds);
   u8 (IEI_WT61P803_PUZZLE_CMD_FAN_PWM cmds channel);
   u8 pwm_set_val;
   0].

(** The three-way [&&] of the acknowledgement test; a byte is read only
    when the ones before it matched. *)
Definition pwm_set_acknowledged : Drv bool :=
  b0 <- resp_buf 0 ;;
  if b0 =? IEI_WT61P803_PUZZLE_CMD_HEADER_START cmds then
    b1 <- resp_buf 1 ;;
    if b1 =? IEI_WT61P803_PUZZLE_CMD_RESPONSE_OK cmds then
      b2 <- resp_buf 2 ;;
      ret (b2 =? IEI_WT61P803_PUZZLE_CHECKSUM_RESPONSE_OK cmds)
    else ret false
  else ret false.

Definition iei_wt61p803_puzzle_write_pwm_channel (channel pwm_set_val : Z)
  : Drv Z :=
  mutex_lock ;;
  ' (ret_, reply_size) <- write_command (pwm_set_cmd channel pwm_set_val) ;;
  res <- (if negb (ret_ =? 0) then ret ret_
          else if negb (reply_size =? 3) then ret (- EIO)
          else
            ok <- pwm_set_acknowledged ;;
            if negb ok then ret (- EIO) else ret ret_) ;;
  mutex_unlock ;;
  ret res.

Definition pwm_get_cmd (channel : Z) : list Z :=
  [u8 (IEI_WT61P803_PUZZLE_CMD_HEADER_START cmds);
   u8 (IEI_WT61P803_PUZZLE_CMD_FAN cmds);
   u8 (IEI_WT61P803_PUZZLE_CMD_FAN_PWM_READ cmds);
   u8 (IEI_WT61P803_PUZZLE_CMD_FAN_PWM cmds channel);
   0].

(** This one has no [mutex_lock] / [mutex_unlock] in the source. *)
Definition iei_wt61p803_puzzle_read_pwm_channel (channel : Z)
  : Drv (Z * option Z) :=
  ' (ret_, reply_size) <- write_command (pwm_get_cmd channel) ;;
  if negb (ret_ =? 0) then ret (ret_, None)
  else if negb (reply_size =? 5) then ret (- EIO, None)
  else
    b2 <- resp_buf 2 ;;
    if negb (b2 =? IEI_WT61P803_PUZZLE_CMD_FAN_PWM_READ cmds)
    then ret (- EIO, None)
    else
      b3 <- resp_buf 3 ;;
      ret (0, Some b3).

(** *** hwmon callbacks *)

Definition iei_wt61p803_puzzle_read
  (type : hwmon_sensor_types) (attr channel : Z) : Drv (Z * option Z) :=
  match type with
  | hwmon_pwm => iei_wt61p803_puzzle_read_pwm_channel channel
  | hwmon_fan => iei_wt61p803_puzzle_read_fan_speed channel
  | hwmon_temp => iei_wt61p803_puzzle_read_temp_sensor channel
  | _ => ret (- EINVAL, None)
  end.

Definition iei_wt61p803_puzzle_write
  (type : hwmon_sensor_types) (attr channel val : Z) : Drv Z :=
  iei_wt61p803_puzzle_write_pwm_channel channel val.

(** [is_visible] only reads the presence vector; indexing it outside its
    two entries is undefined. *)
Definition iei_wt61p803_puzzle_is_visible
  (data : hwmon) (type : hwmon_sensor_types) (attr channel : Z) : result Z :=
  match type with
  | hwmon_pwm =>
      match index (thermal_cooling_dev_present data) channel with
      | None => Undefined
      | Some true => Done mode_0444
      | Some false =>
          if attr =? hwmon_pwm_input attrs then Done mode_0644 else Done 0
      end
  | hwmon_fan =>
      if attr =? hwmon_fan_input attrs then Done mode_0444 else Done 0
  | hwmon_temp =>
      if attr =? hwmon_temp_input attrs then Done mode_0444 else Done 0
  | _ => Done 0
  end.

(** *** Thermal cooling-device callbacks

    [tcdev->devdata] is the cooling record; a callback yields the returned
    [int] and what it stored through [unsigned long *state]. *)

Definition iei_wt61p803_puzzle_get_max_state
  (cdev : iei_wt61p803_puzzle_thermal_cooling_device) : Drv (Z * option Z) :=
  ret (0, Some IEI_WT61P803_PUZZLE_HWMON_MAX_PWM_VAL).

Definition iei_wt61p803_puzzle_get_cur_state
  (cdev : iei_wt61p803_puzzle_thermal_cooling_device) : Drv (Z * option Z) :=
  ' (ret_, value) <- iei_wt61p803_puzzle_read_pwm_channel (pwm_channel cdev) ;;
  if negb (ret_ =? 0) then ret (ret_, None)
  else
    match value with
    | Some v => ret (0, Some (long_to_ulong v))
    | None => undefined      (* [value] would be read uninitialised *)
    end.

Definition iei_wt61p803_puzzle_set_cur_state
  (cdev : iei_wt61p803_puzzle_thermal_cooling_device) (state : Z) : Drv Z :=
  iei_wt61p803_puzzle_write_pwm_channel (pwm_channel cdev) (ulong_to_long state).

(** *** Probe

    The firmware and host calls, whether the kernel is built with
    [CONFIG_THERMAL], and the size of the response buffer (from the header
    of the parent driver). *)
Variable fwnode_handle : Type.
Variable fw : firmware_api fwnode_handle.
Variable HOST : Type.
Variable api : host_api MCU HOST.
Variable CONFIG_THERMAL : bool.
Variable IEI_WT61P803_PUZZLE_BUF_SIZE : Z.

Local Abbreviation pstate := (probe_state MCU HOST).

Definition set_present (st : pstate) (present : list bool) : pstate :=
  Build_probe_state
    (Build_iei_wt61p803_puzzle_hwmon
       (mcu (drvdata st)) (response_buffer (drvdata st)) present
       (lock (drvdata st)))
    (cdev st) (host st) (calls st).

Definition set_host (st : pstate) (h : HOST) : pstate :=
  Build_probe_state (drvdata st) (cdev st) h (calls st).

Definition set_cdev (st : pstate)
  (slots : list (option iei_wt61p803_puzzle_thermal_cooling_device)) : pstate :=
  Build_probe_state (drvdata st) slots (host st) (calls st).

Definition log_call (st : pstate) (c : host_call) : pstate :=
  Build_probe_state (drvdata st) (cdev st) (host st) (calls st ++ [c]).

(** The record is registered right after its name is written; its
    [pwm_channel] is still the zero of [devm_kzalloc] then and is assigned,
    with the back pointer, once the registration has succeeded. *)
Definition iei_wt61p803_puzzle_enable_thermal_cooling_dev
  (child : fwnode_handle) (st : pstate) : result Z * pstate :=
  let '(ret_, pwm_channel) := fwnode_property_read_u32 fw child "reg" in
  if negb (ret_ =? 0) then (Done ret_, st)
  else
    match store (thermal_cooling_dev_present (drvdata st)) pwm_channel true with
    | None => (Undefined, st)
    | Some present =>
        let st := set_present st present in
        let num_levels := u8 (fwnode_property_count_u8 fw child "cooling-levels") in
        if num_levels =? 0 then (Done (- EINVAL), st)
        else
          let '(h, ok) := devm_kzalloc api (host st) in
          let st := set_host st h in
          if negb ok then (Done (- ENOMEM), st)
          else
            let '(h, ok) := devm_kmalloc_array api (host st) num_levels 1 in
            let st := log_call (set_host st h) (HcKmallocArray num_levels 1) in
            if negb ok then (Done (- ENOMEM), st)
            else
              let '(ret_, levels) :=
                fwnode_property_read_u8_array fw child "cooling-levels" num_levels in
              let st := log_call st (HcReadLevels num_levels) in
              if negb (ret_ =? 0) then (Done ret_, st)
              else
                let devdata :=
                  Build_iei_wt61p803_puzzle_thermal_cooling_device
                    (cooling_device_name pwm_channel) 0 levels in
                let '(h, tcdev) :=
                  devm_thermal_of_cooling_device_register api (host st) devdata in
                let st := log_call (set_host st h) (HcCoolingRegister devdata) in
                if IS_ERR tcdev then (Done tcdev, st)
                else
                  match
                    store (cdev st) pwm_channel
                      (Some (Build_iei_wt61p803_puzzle_thermal_cooling_device
                               (cooling_device_name pwm_channel)
                               (int_of_u32 pwm_channel) levels))
                  with
                  | None => (Undefined, st)
                  | Some slots => (Done 0, set_cdev st slots)
                  end
    end.

(** [device_for_each_child_node]: the first child whose binding fails ends
    the loop and probe with its error ([dev_err] and [fwnode_handle_put]
    leave no mark on the state modelled here). *)
Fixpoint for_each_child_node (children : list fwnode_handle) (st : pstate)
  : result Z * pstate :=
  match children with
  | [] => (Done 0, st)
  | child :: rest =>
      match iei_wt61p803_puzzle_enable_thermal_cooling_dev child st with
      | (Done r, st1) =>
          if negb (r =? 0) then (Done r, st1) else for_each_child_node rest st1
      | (Undefined, st1) => (Undefined, st1)
      end
  end.

(** The context as [devm_kzalloc] and [mutex_init] leave it, with the MCU of
    the parent device. *)
Definition zeroed_hwmon (m : MCU) : hwmon :=
  Build_iei_wt61p803_puzzle_hwmon m
    (repeat 0 (Z.to_nat IEI_WT61P803_PUZZLE_BUF_SIZE))
    (repeat false (Z.to_nat IEI_WT61P803_PUZZLE_HWMON_MAX_PWM))
    false.

(** The state probe is in once the hwmon device is registered: the zeroed
    context, no cooling record, and the registration of that context as the
    only call so far ([probe_cases] below). *)
Definition probe_start (m : MCU) (h : HOST) : pstate :=
  Build_probe_state (zeroed_hwmon m)
    (repeat None (Z.to_nat IEI_WT61P803_PUZZLE_HWMON_MAX_PWM)) h
    [HcHwmonRegister (thermal_cooling_dev_present (zeroed_hwmon m))].

(** [devm_hwmon_device_register_with_info(dev, ..., drvdata, ...)]: the
    pointer returned, the host after the call, and the call as it is logged,
    with the presence flags of the very context that was passed. *)
Definition hwmon_register (drvdata : hwmon) (h : HOST) : Z * HOST * host_call :=
  let '(h, hwmon_dev) := devm_hwmon_device_register_with_info api h drvdata in
  (hwmon_dev, h, HcHwmonRegister (thermal_cooling_dev_present drvdata)).

Definition iei_wt61p803_puzzle_hwmon_probe
  (m : MCU) (children : list fwnode_handle) (h : HOST)
  : probe_outcome MCU HOST :=
  let '(h, ok) := devm_kzalloc api h in
  if negb ok then NoContext (- ENOMEM) h
  else
    let mcu_hwmon := zeroed_hwmon m in
    let '(hwmon_dev, h, call) := hwmon_register mcu_hwmon h in
    let st :=
      Build_probe_state mcu_hwmon
        (repeat None (Z.to_nat IEI_WT61P803_PUZZLE_HWMON_MAX_PWM)) h [call] in
    if IS_ERR hwmon_dev then Probed (Done hwmon_dev) st
    else
      (* Control fans via PWM lines via Linux Kernel *)
      if CONFIG_THERMAL
      then let '(r, st) := for_each_child_node children st in Probed r st
      else Probed (Done 0) st.

(** What binding children never undoes: the MCU handle, the response buffer
    and the mutex are left alone, the arrays keep their sizes, a presence
    flag that is set stays set, and the calls made only grow, by calls
    other than the hwmon registration. *)
Definition probe_progress (st st' : pstate) : Prop :=
  mcu (drvdata st') = mcu (drvdata st)
  /\ response_buffer (drvdata st') = response_buffer (drvdata st)
  /\ lock (drvdata st') = lock (drvdata st)
  /\ length (thermal_cooling_dev_present (drvdata st'))
     = length (thermal_cooling_dev_present (drvdata st))
  /\ (forall j,
         index (thermal_cooling_dev_present (drvdata st)) j = Some true ->
         index (thermal_cooling_dev_present (drvdata st')) j = Some true)
  /\ length (cdev st') = length (cdev st)
  /\ exists more,
       calls st' = calls st ++ more
       /\ existsb is_hwmon_register more = false.

(** Slot [j] of [cdev] is empty or holds the record of PWM channel [j]. *)
Definition slots_consistent
  (slots : list (option iei_wt61p803_puzzle_thermal_cooling_device)) : Prop :=
  forall j rec,
    index slots j = Some (Some rec) ->
    pwm_channel rec = j /\ name rec = cooling_device_name j.

(** The child's [reg] names PWM channel 0 or 1, the state marks that channel
    as owned by a cooling device, and its slot holds the channel's record. *)
Definition child_bound (child : fwnode_handle) (st : pstate) : Prop :=
  exists ch rec,
    (ch = 0 \/ ch = 1)
    /\ fwnode_property_read_u32 fw child "reg" = (0, ch)
    /\ index (thermal_cooling_dev_present (drvdata st)) ch = Some true
    /\ index (cdev st) ch = Some (Some rec)
    /\ pwm_channel rec = ch
    /\ name rec = cooling_device_name ch.

(** *** The four verbs and their reply contracts

    The answer of the transport to command [cmd] on device context [s]. *)
Definition bus_reply (s : hwmon) (cmd : list Z) : bus_result MCU :=
  iei_wt61p803_puzzle_write_command (mcu s) cmd (response_buffer s).

(** The device context a locked exchange leaves behind: the transport's
    effects, and the mutex released. *)
Definition after_exchange (s : hwmon) (r : bus_result MCU) : hwmon :=
  Build_iei_wt61p803_puzzle_hwmon
    (bus_mcu r) (bus_buf r) (thermal_cooling_dev_present s) false.

Inductive verb : Type := ReadTemps | ReadFanRpm | WritePwm | ReadPwm.

Definition request (v : verb) (channel value : Z) : list Z :=
  match v with
  | ReadTemps => temp_sensor_ntc_cmd
  | ReadFanRpm => fan_speed_cmd channel
  | WritePwm => pwm_set_cmd channel value
  | ReadPwm => pwm_get_cmd channel
  end.

(** The driver function that carries out a verb; the PWM write has no output
    argument, so it never stores one. *)
Definition exchange (v : verb) (channel value : Z) : Drv (Z * option Z) :=
  match v with
  | ReadTemps => iei_wt61p803_puzzle_read_temp_sensor channel
  | ReadFanRpm => iei_wt61p803_puzzle_read_fan_speed channel
  | WritePwm =>
      r <- iei_wt61p803_puzzle_write_pwm_channel channel value ;; ret (r, None)
  | ReadPwm => iei_wt61p803_puzzle_read_pwm_channel channel
  end.

Definition byte_is (buf : list Z) (i expected : Z) : bool :=
  match index buf i with
  | Some b => b =? expected
  | None => false
  end.

(** The contract of each verb on the reply: its length and its tag bytes. *)
Definition reply_conforms (v : verb) (len : Z) (buf : list Z) : bool :=
  match v with
  | ReadTemps => (len =? 7) && byte_is buf 3 50
  | ReadFanRpm => len =? 7
  | WritePwm =>
      (len =? 3)
      && byte_is buf 0 (IEI_WT61P803_PUZZLE_CMD_HEADER_START cmds)
      && byte_is buf 1 (IEI_WT61P803_PUZZLE_CMD_RESPONSE_OK cmds)
      && byte_is buf 2 (IEI_WT61P803_PUZZLE_CHECKSUM_RESPONSE_OK cmds)
  | ReadPwm =>
      (len =? 5) && byte_is buf 2 (IEI_WT61P803_PUZZLE_CMD_FAN_PWM_READ cmds)
  end.

(** ** Properties *)

(** Decides the tests that have become closed and reduces what they select. *)
Ltac driver_simpl :=
  repeat (progress
            (rewrite ?Z.eqb_refl;
             cbv beta iota zeta;
             cbn [mcu response_buffer thermal_cooling_dev_present lock
                  outcome final trace fst snd negb andb app])).

(** Unfolds the driver's control flow and nothing of the arithmetic. *)
Ltac run_driver :=
  cbv beta iota zeta delta
    [exchange bus_reply after_exchange
     iei_wt61p803_puzzle_read iei_wt61p803_puzzle_write
     iei_wt61p803_puzzle_get_cur_state iei_wt61p803_puzzle_set_cur_state
     iei_wt61p803_puzzle_get_max_state
     iei_wt61p803_puzzle_read_temp_sensor iei_wt61p803_puzzle_read_fan_speed
     iei_wt61p803_puzzle_write_pwm_channel iei_wt61p803_puzzle_read_pwm_channel
     pwm_set_acknowledged write_command resp_buf mutex_lock mutex_unlock
     bind ret undefined after_bus] in *;
  driver_simpl.

(** Splits on every test and every buffer access left in the goal. *)
Ltac driver_cases :=
  repeat (driver_simpl;
          match goal with
          | |- context [match index ?a ?i with _ => _ end] =>
              destruct (index a i) eqn:?
          | |- context [if ?b then _ else _] => destruct b eqn:?
          end);
  driver_simpl.

(** *** Arithmetic of the conversions *)

Lemma u8_range (x : Z) : 0 <= u8 x <= 255.
Proof. unfold u8. pose proof (Z.mod_pos_bound x 256). lia. Qed.

Lemma u8_byte (x : Z) : 0 <= x <= 255 -> u8 x = x.
Proof. intros H. unfold u8. apply Z.mod_small. lia. Qed.

Lemma u8_ulong_to_long (x : Z) : u8 (ulong_to_long x) = u8 x.
Proof.
  unfold u8, ulong_to_long. destruct (x <? 2 ^ 63); [reflexivity|].
  replace (x - 2 ^ 64) with (x + (- 2 ^ 56) * 256) by lia.
  apply Z.mod_add. lia.
Qed.

Lemma raw_temp_range (x : Z) :
  0 <= x <= 255 -> -128000 <= raw_temp_to_milidegree_celsius x <= 127000.
Proof. unfold raw_temp_to_milidegree_celsius. lia. Qed.

Lemma raw_fan_val_nonneg (hi lo : Z) :
  0 <= hi -> 0 <= lo -> 0 <= raw_fan_val_to_rpm hi lo.
Proof.
  intros Hhi Hlo. unfold raw_fan_val_to_rpm.
  assert (0 <= Z.lor (Z.shiftl hi 8) lo) as Hor.
  { apply Z.lor_nonneg. split; [apply Z.shiftl_nonneg|]; assumption. }
  pose proof (Z.quot_pos _ 2 Hor ltac:(lia)). lia.
Qed.

(** The duty byte of a PWM write request is its fifth byte. *)
Lemma pwm_set_cmd_duty (channel val : Z) :
  index (pwm_set_cmd channel val) 4 = Some (u8 val).
Proof. reflexivity. Qed.

(** *** Every exchange hands exactly one command to the transport *)

Lemma read_temp_sensor_commands (s : hwmon) (channel : Z) :
  commands_of (trace (iei_wt61p803_puzzle_read_temp_sensor channel s))
  = [temp_sensor_ntc_cmd].
Proof. run_driver. driver_cases; reflexivity. Qed.

Lemma read_fan_speed_commands (s : hwmon) (channel : Z) :
  commands_of (trace (iei_wt61p803_puzzle_read_fan_speed channel s))
  = [fan_speed_cmd channel].
Proof. run_driver. driver_cases; reflexivity. Qed.

Lemma write_pwm_channel_commands (s : hwmon) (channel val : Z) :
  commands_of (trace (iei_wt61p803_puzzle_write_pwm_channel channel val s))
  = [pwm_set_cmd channel val].
Proof. run_driver. driver_cases; reflexivity. Qed.

Lemma read_pwm_channel_commands (s : hwmon) (channel : Z) :
  commands_of (trace (iei_wt61p803_puzzle_read_pwm_channel channel s))
  = [pwm_get_cmd channel].
Proof. run_driver. driver_cases; reflexivity. Qed.

(** *** Locking *)

Lemma read_temp_sensor_locked (s : hwmon) (channel : Z) :
  trace_locked (trace (iei_wt61p803_puzzle_read_temp_sensor channel s)) = true.
Proof. run_driver. driver_cases; reflexivity. Qed.

Lemma read_fan_speed_locked (s : hwmon) (channel : Z) :
  trace_locked (trace (iei_wt61p803_puzzle_read_fan_speed channel s)) = true.
Proof. run_driver. driver_cases; reflexivity. Qed.

Lemma write_pwm_channel_locked (s : hwmon) (channel val : Z) :
  trace_locked (trace (iei_wt61p803_puzzle_write_pwm_channel channel val s)) = true.
Proof. run_driver. driver_cases; reflexivity. Qed.

(** The PWM read touches the response buffer under whatever state of the
    mutex it was called with, and never changes that state. *)
Lemma read_pwm_channel_lock_untouched (s : hwmon) (channel : Z) :
  trace_locked (trace (iei_wt61p803_puzzle_read_pwm_channel channel s)) = lock s
  /\ lock (final (iei_wt61p803_puzzle_read_pwm_channel channel s)) = lock s.
Proof.
  run_driver. unfold trace_locked.
  driver_cases; cbn [forallb event_locked]; rewrite ?andb_true_r, ?andb_diag;
    split; reflexivity.
Qed.

(** *** Successful exchanges *)

Lemma read_temp_sensor_ok (s : hwmon) (channel raw : Z) :
  let r := bus_reply s temp_sensor_ntc_cmd in
  bus_ret r = 0 -> bus_len r = 7 ->
  index (bus_buf r) 3 = Some 50 ->
  index (bus_buf r) (4 + channel) = Some raw ->
  iei_wt61p803_puzzle_read_temp_sensor channel s =
    (Done (0, Some (raw_temp_to_milidegree_celsius raw)),
     after_exchange s r,
     [EvCommand true temp_sensor_ntc_cmd; EvRespRead true 3;
      EvRespRead true (4 + channel)]).
Proof.
  intros r Hret Hlen H3 Hraw. subst r.
  run_driver. rewrite Hret, Hlen. driver_simpl.
  rewrite H3. driver_simpl. rewrite Hraw. reflexivity.
Qed.

Lemma read_fan_speed_ok (s : hwmon) (channel hi lo : Z) :
  let r := bus_reply s (fan_speed_cmd channel) in
  bus_ret r = 0 -> bus_len r = 7 ->
  index (bus_buf r) 3 = Some hi ->
  index (bus_buf r) 4 = Some lo ->
  iei_wt61p803_puzzle_read_fan_speed channel s =
    (Done (0, Some (raw_fan_val_to_rpm hi lo)),
     after_exchange s r,
     [EvCommand true (fan_speed_cmd channel); EvRespRead true 3;
      EvRespRead true 4]).
Proof.
  intros r Hret Hlen Hhi Hlo. subst r.
  run_driver. rewrite Hret, Hlen. driver_simpl.
  rewrite Hhi. driver_simpl. rewrite Hlo. reflexivity.
Qed.

Lemma write_pwm_channel_ok (s : hwmon) (channel val : Z) :
  let r := bus_reply s (pwm_set_cmd channel val) in
  bus_ret r = 0 -> bus_len r = 3 ->
  index (bus_buf r) 0 = Some (IEI_WT61P803_PUZZLE_CMD_HEADER_START cmds) ->
  index (bus_buf r) 1 = Some (IEI_WT61P803_PUZZLE_CMD_RESPONSE_OK cmds) ->
  index (bus_buf r) 2 = Some (IEI_WT61P803_PUZZLE_CHECKSUM_RESPONSE_OK cmds) ->
  iei_wt61p803_puzzle_write_pwm_channel channel val s =
    (Done 0,
     after_exchange s r,
     [EvCommand true (pwm_set_cmd channel val); EvRespRead true 0;
      EvRespRead true 1; EvRespRead true 2]).
Proof.
  intros r Hret Hlen H0 H1 H2. subst r.
  run_driver. rewrite Hret, Hlen. driver_simpl.
  rewrite H0. driver_simpl. rewrite H1. driver_simpl. rewrite H2. driver_simpl.
  reflexivity.
Qed.

Lemma read_pwm_channel_ok (s : hwmon) (channel duty : Z) :
  let r := bus_reply s (pwm_get_cmd channel) in
  bus_ret r = 0 -> bus_len r = 5 ->
  index (bus_buf r) 2 = Some (IEI_WT61P803_PUZZLE_CMD_FAN_PWM_READ cmds) ->
  index (bus_buf r) 3 = Some duty ->
  iei_wt61p803_puzzle_read_pwm_channel channel s =
    (Done (0, Some duty),
     after_bus s r,
     [EvCommand (lock s) (pwm_get_cmd channel); EvRespRead (lock s) 2;
      EvRespRead (lock s) 3]).
Proof.
  intros r Hret Hlen H2 H3. subst r.
  run_driver. rewrite Hret, Hlen. driver_simpl.
  rewrite H2. driver_simpl. rewrite H3. reflexivity.
Qed.

(** A bus error is returned as it is, and nothing is stored. *)
Lemma exchange_bus_error (v : verb) (s : hwmon) (channel value : Z) :
  let r := bus_reply s (request v channel value) in
  bus_ret r <> 0 ->
  outcome (exchange v channel value s) = Done (bus_ret r, None).
Proof.
  intros r Hret. subst r. apply Z.eqb_neq in Hret.
  destruct v; run_driver; cbv [request] in Hret; run_driver;
    rewrite Hret; driver_simpl; reflexivity.
Qed.

(** *** Claims *)

(** C2: for a channel [c] in {0, 1}, when the transport succeeds with a
    7-byte reply whose byte 3 is the character '2' (code 50), the temperature
    read (the function itself and the hwmon read callback for kind temp)
    returns 0 and stores [(reply byte (4 + c) - 128) * 1000]; and the
    conversion maps every byte value into [-128000, 127000]. *)
Theorem read_temp_milli_celsius (s : hwmon) (attr c raw : Z) :
  c = 0 \/ c = 1 ->
  bus_ret (bus_reply s temp_sensor_ntc_cmd) = 0 ->
  bus_len (bus_reply s temp_sensor_ntc_cmd) = 7 ->
  index (bus_buf (bus_reply s temp_sensor_ntc_cmd)) 3 = Some 50 ->
  index (bus_buf (bus_reply s temp_sensor_ntc_cmd)) (4 + c) = Some raw ->
  outcome (iei_wt61p803_puzzle_read_temp_sensor c s)
    = Done (0, Some ((raw - 128) * 1000))
  /\ outcome (iei_wt61p803_puzzle_read hwmon_temp attr c s)
    = Done (0, Some ((raw - 128) * 1000))
  /\ (forall x : Z,
         0 <= x <= 255 ->
         -128000 <= raw_temp_to_milidegree_celsius x <= 127000).
Proof.
  intros _ Hret Hlen H3 Hraw.
  pose proof (read_temp_sensor_ok s c raw Hret Hlen H3 Hraw) as Hrun.
  split; [|split].
  - rewrite Hrun. reflexivity.
  - unfold iei_wt61p803_puzzle_read. rewrite Hrun. reflexivity.
  - exact raw_temp_range.
Qed.

(** C3: for every fan channel, when the transport succeeds with a 7-byte
    reply, the fan-speed read (the function itself and the hwmon read
    callback for kind fan) returns 0 and stores [((hi << 8) | lo) / 2 * 60]
    for reply bytes [hi] and [lo] at positions 3 and 4; and the conversion is
    non-negative on all of the 16-bit domain. *)
Theorem read_fan_speed_rpm (s : hwmon) (attr channel hi lo : Z) :
  bus_ret (bus_reply s (fan_speed_cmd channel)) = 0 ->
  bus_len (bus_reply s (fan_speed_cmd channel)) = 7 ->
  index (bus_buf (bus_reply s (fan_speed_cmd channel))) 3 = Some hi ->
  index (bus_buf (bus_reply s (fan_speed_cmd channel))) 4 = Some lo ->
  outcome (iei_wt61p803_puzzle_read_fan_speed channel s)
    = Done (0, Some (Z.quot (Z.lor (Z.shiftl hi 8) lo) 2 * 60))
  /\ outcome (iei_wt61p803_puzzle_read hwmon_fan attr channel s)
    = Done (0, Some (Z.quot (Z.lor (Z.shiftl hi 8) lo) 2 * 60))
  /\ (forall x y : Z,
         0 <= x <= 255 -> 0 <= y <= 255 -> 0 <= raw_fan_val_to_rpm x y).
Proof.
  intros Hret Hlen Hhi Hlo.
  pose proof (read_fan_speed_ok s channel hi lo Hret Hlen Hhi Hlo) as Hrun.
  split; [|split].
  - rewrite Hrun. reflexivity.
  - unfold iei_wt61p803_puzzle_read. rewrite Hrun. reflexivity.
  - intros x y Hx Hy. apply raw_fan_val_nonneg; lia.
Qed.

(** C4: for each of the four verbs, when the transport succeeds but the
    reply departs from the verb's contract (its length, or one of its checked
    tag bytes), the operation returns [-EIO] and stores nothing through the
    caller's output argument.  The response buffer is assumed to hold the
    four leading bytes the checks look at. *)
Theorem framing_error_is_eio (v : verb) (s : hwmon) (channel value : Z) :
  bus_ret (bus_reply s (request v channel value)) = 0 ->
  (4 <= length (bus_buf (bus_reply s (request v channel value))))%nat ->
  reply_conforms v (bus_len (bus_reply s (request v channel value)))
    (bus_buf (bus_reply s (request v channel value))) = false ->
  outcome (exchange v channel value s) = Done (- EIO, None).
Proof.
  intros Hret Hlen Hconf.
  assert (forall i, 0 <= i < 4 ->
            index (bus_buf (bus_reply s (request v channel value))) i <> None)
    as Hin.
  { intros i Hi Hnone. unfold index in Hnone.
    destruct (i <? 0) eqn:Hneg; [lia|].
    apply nth_error_None in Hnone. lia. }
  destruct v; cbv [reply_conforms byte_is request] in Hconf, Hret, Hin;
    run_driver; rewrite Hret; driver_simpl.
  - destruct (_ =? 7); driver_simpl; [|reflexivity].
    cbn [andb] in Hconf.
    destruct (index _ 3) eqn:E3; [|exfalso; apply (Hin 3); [lia|exact E3]].
    driver_simpl. rewrite Hconf. reflexivity.
  - rewrite Hconf. reflexivity.
  - destruct (_ =? 3); driver_simpl; [|reflexivity].
    cbn [andb] in Hconf.
    destruct (index _ 0) eqn:E0; [|exfalso; apply (Hin 0); [lia|exact E0]].
    driver_simpl. destruct (_ =? _); driver_simpl; [|reflexivity].
    cbn [andb] in Hconf.
    destruct (index _ 1) eqn:E1; [|exfalso; apply (Hin 1); [lia|exact E1]].
    driver_simpl. destruct (_ =? _); driver_simpl; [|reflexivity].
    cbn [andb] in Hconf.
    destruct (index _ 2) eqn:E2; [|exfalso; apply (Hin 2); [lia|exact E2]].
    driver_simpl. rewrite Hconf. reflexivity.
  - destruct (_ =? 5); driver_simpl; [|reflexivity].
    cbn [andb] in Hconf.
    destruct (index _ 2) eqn:E2; [|exfalso; apply (Hin 2); [lia|exact E2]].
    driver_simpl. rewrite Hconf. reflexivity.
Qed.

(** X3: a reply that meets the verb's contract is accepted.  For each of
    the four verbs and a channel 0 or 1: when the transport returns 0, the
    response buffer holds at least seven bytes and the reply has the verb's
    length and tag bytes, the operation returns 0. *)
Lemma conforming_reply_succeeds (v : verb) (s : hwmon) (channel value : Z) :
  bus_ret (bus_reply s (request v channel value)) = 0 ->
  (7 <= length (bus_buf (bus_reply s (request v channel value))))%nat ->
  0 <= channel <= 1 ->
  reply_conforms v (bus_len (bus_reply s (request v channel value)))
    (bus_buf (bus_reply s (request v channel value))) = true ->
  exists out, outcome (exchange v channel value s) = Done (0, out).
Proof.
  intros Hret Hlen Hch Hconf.
  assert (forall i, 0 <= i < 7 ->
            index (bus_buf (bus_reply s (request v channel value))) i <> None)
    as Hin.
  { intros i Hi Hnone. unfold index in Hnone.
    destruct (i <? 0) eqn:Hneg; [lia|].
    apply nth_error_None in Hnone. lia. }
  destruct v; cbv [reply_conforms byte_is request] in Hconf, Hret, Hin;
    run_driver; rewrite Hret; driver_simpl;
    repeat match type of Hconf with
           | (_ && _)%bool = true =>
               let H := fresh "Hc" in apply andb_prop in Hconf as [Hconf H]
           end.
  - rewrite Hconf. driver_simpl.
    destruct (index _ 3) eqn:E3; [|discriminate]. driver_simpl.
    rewrite Hc. driver_simpl.
    destruct (index _ (4 + channel)) eqn:E4;
      [|exfalso; apply (Hin (4 + channel)); [lia|exact E4]].
    eexists. reflexivity.
  - rewrite Hconf. driver_simpl.
    destruct (index _ 3) eqn:E3; [|exfalso; apply (Hin 3); [lia|exact E3]].
    driver_simpl.
    destruct (index _ 4) eqn:E4; [|exfalso; apply (Hin 4); [lia|exact E4]].
    eexists. reflexivity.
  - rewrite Hconf. driver_simpl.
    destruct (index _ 0) eqn:E0; [|discriminate]. driver_simpl.
    rewrite Hc1. driver_simpl.
    destruct (index _ 1) eqn:E1; [|discriminate]. driver_simpl.
    rewrite Hc0. driver_simpl.
    destruct (index _ 2) eqn:E2; [|discriminate]. driver_simpl.
    rewrite Hc. driver_simpl. eexists. reflexivity.
  - rewrite Hconf. driver_simpl.
    destruct (index _ 2) eqn:E2; [|discriminate]. driver_simpl.
    rewrite Hc. driver_simpl.
    destruct (index _ 3) eqn:E3; [|exfalso; apply (Hin 3); [lia|exact E3]].
    eexists. reflexivity.
Qed.

(** C7: for a duty [v] in [0, 255] and any PWM channel: when the write of
    [v] is acknowledged by a well-formed reply, and the reply to the
    following read is well-formed and carries in byte 3 the duty byte of that
    write request, then the write returns 0 and the read returns 0 and
    stores [v]. *)
Theorem pwm_write_read_round_trip
  (s : hwmon) (type : hwmon_sensor_types) (attr ch v : Z) :
  0 <= v <= 255 ->
  let w := bus_reply s (pwm_set_cmd ch v) in
  bus_ret w = 0 -> bus_len w = 3 ->
  index (bus_buf w) 0 = Some (IEI_WT61P803_PUZZLE_CMD_HEADER_START cmds) ->
  index (bus_buf w) 1 = Some (IEI_WT61P803_PUZZLE_CMD_RESPONSE_OK cmds) ->
  index (bus_buf w) 2 = Some (IEI_WT61P803_PUZZLE_CHECKSUM_RESPONSE_OK cmds) ->
  let r := bus_reply (after_exchange s w) (pwm_get_cmd ch) in
  bus_ret r = 0 -> bus_len r = 5 ->
  index (bus_buf r) 2 = Some (IEI_WT61P803_PUZZLE_CMD_FAN_PWM_READ cmds) ->
  index (bus_buf r) 3 = index (pwm_set_cmd ch v) 4 ->
  outcome (iei_wt61p803_puzzle_write type attr ch v s) = Done 0
  /\ final (iei_wt61p803_puzzle_write type attr ch v s) = after_exchange s w
  /\ outcome (iei_wt61p803_puzzle_read hwmon_pwm attr ch (after_exchange s w))
     = Done (0, Some v).
Proof.
  intros Hv w Hwret Hwlen Hw0 Hw1 Hw2 r Hrret Hrlen Hr2 Hecho.
  pose proof (write_pwm_channel_ok s ch v Hwret Hwlen Hw0 Hw1 Hw2) as Hwrite.
  fold w in Hwrite.
  assert (index (bus_buf r) 3 = Some v) as Hr3.
  { rewrite Hecho, pwm_set_cmd_duty. f_equal. apply u8_byte, Hv. }
  pose proof (read_pwm_channel_ok (after_exchange s w) ch v Hrret Hrlen Hr2 Hr3)
    as Hread.
  unfold iei_wt61p803_puzzle_write, iei_wt61p803_puzzle_read.
  rewrite Hwrite, Hread. repeat split.
Qed.

Lemma pwm_set_cmd_ulong (channel state : Z) :
  pwm_set_cmd channel (ulong_to_long state) = pwm_set_cmd channel state.
Proof. unfold pwm_set_cmd. rewrite u8_ulong_to_long. reflexivity. Qed.

(** The PWM write looks at its value only through the request it builds. *)
Lemma write_pwm_channel_same_request (s : hwmon) (channel v1 v2 : Z) :
  pwm_set_cmd channel v1 = pwm_set_cmd channel v2 ->
  iei_wt61p803_puzzle_write_pwm_channel channel v1 s
  = iei_wt61p803_puzzle_write_pwm_channel channel v2 s.
Proof.
  intros H. unfold iei_wt61p803_puzzle_write_pwm_channel. rewrite H.
  reflexivity.
Qed.

(** C8: the cooling-device callbacks.  [get_max_state] stores 255 and
    returns 0 without touching the device.  [set_cur_state] with state [st]
    runs exactly as the hwmon write of [st] on the record's channel, and the
    one command it hands to the transport is [HEADER_START, FAN,
    FAN_PWM_WRITE, FAN_PWM(ch), st as a byte] followed by the checksum slot;
    the byte is [st] itself for [st] up to the maximal state 255.
    [get_cur_state] performs the PWM read of the record's channel: a
    non-zero return of the read is returned unchanged with nothing stored,
    and a successful read of duty byte [d] stores [d]. *)
Theorem cooling_device_callbacks
  (s : hwmon) (cdev : iei_wt61p803_puzzle_thermal_cooling_device)
  (type : hwmon_sensor_types) (attr st : Z) :
  iei_wt61p803_puzzle_get_max_state cdev s = (Done (0, Some 255), s, [])
  /\ iei_wt61p803_puzzle_set_cur_state cdev st s
     = iei_wt61p803_puzzle_write type attr (pwm_channel cdev) st s
  /\ commands_of (trace (iei_wt61p803_puzzle_set_cur_state cdev st s))
     = [[u8 (IEI_WT61P803_PUZZLE_CMD_HEADER_START cmds);
         u8 (IEI_WT61P803_PUZZLE_CMD_FAN cmds);
         u8 (IEI_WT61P803_PUZZLE_CMD_FAN_PWM_WRITE cmds);
         u8 (IEI_WT61P803_PUZZLE_CMD_FAN_PWM cmds (pwm_channel cdev));
         st mod 256;
         0]]
  /\ (0 <= st <= IEI_WT61P803_PUZZLE_HWMON_MAX_PWM_VAL -> st mod 256 = st)
  /\ trace (iei_wt61p803_puzzle_get_cur_state cdev s)
     = trace (iei_wt61p803_puzzle_read_pwm_channel (pwm_channel cdev) s)
  /\ (forall e out,
         outcome (iei_wt61p803_puzzle_read_pwm_channel (pwm_channel cdev) s)
           = Done (e, out) ->
         e <> 0 ->
         outcome (iei_wt61p803_puzzle_get_cur_state cdev s) = Done (e, None))
  /\ (forall d,
         outcome (iei_wt61p803_puzzle_read_pwm_channel (pwm_channel cdev) s)
           = Done (0, Some d) ->
         0 <= d <= 255 ->
         outcome (iei_wt61p803_puzzle_get_cur_state cdev s) = Done (0, Some d)).
Proof.
  split; [reflexivity|].
  split.
  { unfold iei_wt61p803_puzzle_set_cur_state, iei_wt61p803_puzzle_write.
    apply write_pwm_channel_same_request, pwm_set_cmd_ulong. }
  split.
  { unfold iei_wt61p803_puzzle_set_cur_state.
    rewrite write_pwm_channel_commands, pwm_set_cmd_ulong. reflexivity. }
  split.
  { unfold IEI_WT61P803_PUZZLE_HWMON_MAX_PWM_VAL. intros H.
    apply Z.mod_small. lia. }
  unfold iei_wt61p803_puzzle_get_cur_state, bind.
  destruct (iei_wt61p803_puzzle_read_pwm_channel (pwm_channel cdev) s)
    as [[[[e out]|] s1] t1] eqn:Hrun; cbn [trace outcome fst snd].
  - split; [|split].
    + destruct (negb (e =? 0)); [|destruct out]; cbv [ret undefined];
        cbn [snd]; rewrite app_nil_r; reflexivity.
    + intros e' out' Heq Hne. injection Heq as -> ->.
      apply Z.eqb_neq in Hne. rewrite Hne. reflexivity.
    + intros d Heq Hd. injection Heq as -> ->. cbn.
      unfold long_to_ulong. rewrite Z.mod_small by lia. reflexivity.
  - split; [reflexivity|]. split; intros; discriminate.
Qed.

(** C9, as the code has it: a PWM write forwards every requested value; the
    one command handed to the transport carries the value converted to
    [unsigned char], that is the value modulo 256, whether or not the value
    lies in [0, 255].  Nothing is clamped and nothing is rejected. *)
Theorem pwm_write_truncates_duty
  (s : hwmon) (type : hwmon_sensor_types) (attr ch v : Z) :
  commands_of (trace (iei_wt61p803_puzzle_write_pwm_channel ch v s))
    = [pwm_set_cmd ch v]
  /\ commands_of (trace (iei_wt61p803_puzzle_write type attr ch v s))
    = [pwm_set_cmd ch v]
  /\ index (pwm_set_cmd ch v) 4 = Some (v mod 256).
Proof.
  unfold iei_wt61p803_puzzle_write.
  rewrite write_pwm_channel_commands. repeat split.
Qed.

(** C6, as the code has it: no operation looks at the range of its channel
    index.  For every channel value the hwmon read of kind temp, fan or pwm
    and the hwmon write hand exactly one command to the transport, built
    from that channel; the only request refused before the bus is a read of
    another sensor kind, which returns [-EINVAL] and stores nothing. *)
Theorem channel_index_not_checked
  (s : hwmon) (type : hwmon_sensor_types) (attr ch val : Z) :
  commands_of (trace (iei_wt61p803_puzzle_read hwmon_temp attr ch s))
    = [temp_sensor_ntc_cmd]
  /\ commands_of (trace (iei_wt61p803_puzzle_read hwmon_fan attr ch s))
    = [fan_speed_cmd ch]
  /\ commands_of (trace (iei_wt61p803_puzzle_read hwmon_pwm attr ch s))
    = [pwm_get_cmd ch]
  /\ commands_of (trace (iei_wt61p803_puzzle_write type attr ch val s))
    = [pwm_set_cmd ch val]
  /\ match type with
     | hwmon_temp | hwmon_fan | hwmon_pwm => True
     | _ => iei_wt61p803_puzzle_read type attr ch s
            = (Done (- EINVAL, None), s, [])
     end.
Proof.
  unfold iei_wt61p803_puzzle_read, iei_wt61p803_puzzle_write.
  rewrite read_temp_sensor_commands, read_fan_speed_commands,
    read_pwm_channel_commands, write_pwm_channel_commands.
  repeat split. destruct type; first [exact I | reflexivity].
Qed.

(** The visibility rule, branch by branch. *)
Lemma is_visible_pwm_owned (data : hwmon) (attr channel : Z) :
  index (thermal_cooling_dev_present data) channel = Some true ->
  iei_wt61p803_puzzle_is_visible data hwmon_pwm attr channel = Done mode_0444.
Proof.
  intros H. unfold iei_wt61p803_puzzle_is_visible. rewrite H. reflexivity.
Qed.

Lemma is_visible_pwm_free (data : hwmon) (attr channel : Z) :
  index (thermal_cooling_dev_present data) channel = Some false ->
  iei_wt61p803_puzzle_is_visible data hwmon_pwm attr channel
  = Done (if attr =? hwmon_pwm_input attrs then mode_0644 else 0).
Proof.
  intros H. unfold iei_wt61p803_puzzle_is_visible. rewrite H.
  destruct (attr =? _); reflexivity.
Qed.

Lemma is_visible_fan (data : hwmon) (attr channel : Z) :
  iei_wt61p803_puzzle_is_visible data hwmon_fan attr channel
  = Done (if attr =? hwmon_fan_input attrs then mode_0444 else 0).
Proof. unfold iei_wt61p803_puzzle_is_visible. destruct (attr =? _); reflexivity. Qed.

Lemma is_visible_temp (data : hwmon) (attr channel : Z) :
  iei_wt61p803_puzzle_is_visible data hwmon_temp attr channel
  = Done (if attr =? hwmon_temp_input attrs then mode_0444 else 0).
Proof. unfold iei_wt61p803_puzzle_is_visible. destruct (attr =? _); reflexivity. Qed.

Lemma is_visible_other_kind (data : hwmon) (type : hwmon_sensor_types) (attr channel : Z) :
  type <> hwmon_pwm -> type <> hwmon_fan -> type <> hwmon_temp ->
  iei_wt61p803_puzzle_is_visible data type attr channel = Done 0.
Proof. destruct type; intros; try reflexivity; congruence. Qed.

(** C5, as the code has it: the visibility table.  For kind pwm on a
    channel that has a presence flag: when the flag is set the mode is 0444
    for every attribute, [hwmon_pwm_input] or not (the flag is tested before
    the attribute); when it is clear the mode is 0644 for attribute
    [hwmon_pwm_input] and 0 for any other.  For kind fan and for kind temp
    the mode is 0444 for the input attribute and 0 for any other.  For every
    other kind the mode is 0. *)
Theorem is_visible_table
  (data : hwmon) (type : hwmon_sensor_types) (attr channel : Z)
  (owned : bool) :
  (type = hwmon_pwm ->
   index (thermal_cooling_dev_present data) channel = Some owned) ->
  iei_wt61p803_puzzle_is_visible data type attr channel
  = Done match type with
         | hwmon_pwm =>
             if owned then mode_0444
             else if attr =? hwmon_pwm_input attrs then mode_0644 else 0
         | hwmon_fan => if attr =? hwmon_fan_input attrs then mode_0444 else 0
         | hwmon_temp => if attr =? hwmon_temp_input attrs then mode_0444 else 0
         | _ => 0
         end.
Proof.
  intros Hflag. destruct type;
    try (rewrite is_visible_other_kind by discriminate; reflexivity).
  - apply is_visible_temp.
  - apply is_visible_fan.
  - specialize (Hflag eq_refl). destruct owned.
    + apply is_visible_pwm_owned, Hflag.
    + apply is_visible_pwm_free, Hflag.
Qed.

(** C10: the hwmon write callback runs the PWM write on the given channel
    and value whatever the sensor kind and attribute are, so for any kind it
    hands the PWM-write command to the transport; the visibility rule never
    grants a write permission bit on kind temp or fan. *)
Theorem hwmon_write_ignores_kind
  (s : hwmon) (type : hwmon_sensor_types) (attr ch val : Z) :
  iei_wt61p803_puzzle_write type attr ch val s
    = iei_wt61p803_puzzle_write_pwm_channel ch val s
  /\ commands_of (trace (iei_wt61p803_puzzle_write hwmon_temp attr ch val s))
    = [pwm_set_cmd ch val]
  /\ commands_of (trace (iei_wt61p803_puzzle_write hwmon_fan attr ch val s))
    = [pwm_set_cmd ch val]
  /\ (forall a c, exists m,
         iei_wt61p803_puzzle_is_visible s hwmon_temp a c = Done m
         /\ Z.land m mode_0222 = 0)
  /\ (forall a c, exists m,
         iei_wt61p803_puzzle_is_visible s hwmon_fan a c = Done m
         /\ Z.land m mode_0222 = 0).
Proof.
  unfold iei_wt61p803_puzzle_write. rewrite write_pwm_channel_commands.
  repeat split.
  - intros a c. rewrite is_visible_temp.
    destruct (a =? _); eexists; split; reflexivity.
  - intros a c. rewrite is_visible_fan.
    destruct (a =? _); eexists; split; reflexivity.
Qed.

(** ** Further properties of the exchanges and of probe *)

(** *** Arrays *)

Lemma index_in_range {A : Type} (a : list A) (i : Z) :
  0 <= i < Z.of_nat (length a) -> exists x, index a i = Some x.
Proof.
  intros Hi. unfold index. destruct (i <? 0) eqn:Hneg; [lia|].
  destruct (nth_error a (Z.to_nat i)) eqn:E; [eauto|].
  apply nth_error_None in E. lia.
Qed.

Lemma index_some_range {A : Type} (a : list A) (i : Z) (x : A) :
  index a i = Some x -> 0 <= i < Z.of_nat (length a).
Proof.
  unfold index. destruct (i <? 0) eqn:Hneg; [discriminate|]. intros H.
  assert (nth_error a (Z.to_nat i) <> None) as Hn by congruence.
  apply nth_error_Some in Hn. lia.
Qed.

Lemma store_range {A : Type} (a a' : list A) (i : Z) (v : A) :
  store a i v = Some a' -> 0 <= i < Z.of_nat (length a).
Proof.
  unfold store.
  destruct ((i <? 0) || (Z.of_nat (length a) <=? i)) eqn:E; [discriminate|].
  intros _. apply orb_false_elim in E as [E1 E2]. lia.
Qed.

Lemma store_none {A : Type} (a : list A) (i : Z) (v : A) :
  i < 0 \/ Z.of_nat (length a) <= i -> store a i v = None.
Proof.
  intros H. unfold store.
  destruct ((i <? 0) || (Z.of_nat (length a) <=? i)) eqn:E; [reflexivity|].
  apply orb_false_elim in E as [E1 E2]. lia.
Qed.

Lemma store_length {A : Type} (a a' : list A) (i : Z) (v : A) :
  store a i v = Some a' -> length a' = length a.
Proof.
  intros H. pose proof (store_range _ _ _ _ H) as Hr. unfold store in H.
  destruct ((i <? 0) || (Z.of_nat (length a) <=? i)); [discriminate|].
  injection H as <-.
  rewrite length_app, length_firstn. cbn [length]. rewrite length_skipn. lia.
Qed.

Lemma index_store_same {A : Type} (a a' : list A) (i : Z) (v : A) :
  store a i v = Some a' -> index a' i = Some v.
Proof.
  intros H. pose proof (store_range _ _ _ _ H) as Hr. unfold store in H.
  destruct ((i <? 0) || (Z.of_nat (length a) <=? i)); [discriminate|].
  injection H as <-. unfold index.
  destruct (i <? 0) eqn:Hneg; [lia|].
  rewrite nth_error_app2; rewrite length_firstn; [|lia].
  replace (Z.to_nat i - Nat.min (Z.to_nat i) (length a))%nat with 0%nat by lia.
  reflexivity.
Qed.

Lemma index_store_other {A : Type} (a a' : list A) (i j : Z) (v : A) :
  store a i v = Some a' -> j <> i -> index a' j = index a j.
Proof.
  intros H Hne. pose proof (store_range _ _ _ _ H) as Hr. unfold store in H.
  destruct ((i <? 0) || (Z.of_nat (length a) <=? i)); [discriminate|].
  injection H as <-. unfold index.
  destruct (j <? 0) eqn:Hneg; [reflexivity|].
  assert (Z.to_nat j <> Z.to_nat i) as Hn by lia.
  destruct (Nat.lt_ge_cases (Z.to_nat j) (Z.to_nat i)) as [Hlt|Hge].
  - rewrite nth_error_app1 by (rewrite length_firstn; lia).
    rewrite nth_error_firstn.
    destruct (Nat.ltb_spec (Z.to_nat j) (Z.to_nat i)); [reflexivity|lia].
  - rewrite nth_error_app2 by (rewrite length_firstn; lia).
    rewrite length_firstn.
    replace (Z.to_nat j - Nat.min (Z.to_nat i) (length a))%nat
      with (S (Z.to_nat j - Z.to_nat (i + 1)))%nat by lia.
    cbn [nth_error]. rewrite nth_error_skipn. f_equal. lia.
Qed.

(** *** One child node *)

(** Splits a run of the binding of one child on every call and test. *)
Ltac enable_inversion H :=
  unfold iei_wt61p803_puzzle_enable_thermal_cooling_dev in H;
  repeat match type of H with
         | context [match ?x with _ => _ end] => destruct x eqn:?
         end.

Lemma negb_eqb_false (z : Z) : negb (z =? 0) = false -> z = 0.
Proof. intros H. apply negb_false_iff, Z.eqb_eq in H. exact H. Qed.

Lemma negb_eqb_true (z : Z) : negb (z =? 0) = true -> z <> 0.
Proof. intros H. apply negb_true_iff, Z.eqb_neq in H. exact H. Qed.

Lemma IS_ERR_nonzero (p : Z) : IS_ERR p = true -> p <> 0.
Proof. unfold IS_ERR. intros H. apply andb_prop in H as [_ H]. lia. Qed.

(** What a successful binding went through and what it leaves. *)
Lemma enable_success (child : fwnode_handle) (st st' : pstate) :
  iei_wt61p803_puzzle_enable_thermal_cooling_dev child st = (Done 0, st') ->
  exists ch present levels slots,
    fwnode_property_read_u32 fw child "reg" = (0, ch)
    /\ store (thermal_cooling_dev_present (drvdata st)) ch true = Some present
    /\ fwnode_property_read_u8_array fw child "cooling-levels"
         (u8 (fwnode_property_count_u8 fw child "cooling-levels"))
       = (0, levels)
    /\ store (cdev st) ch
         (Some (Build_iei_wt61p803_puzzle_thermal_cooling_device
                  (cooling_device_name ch) (int_of_u32 ch) levels))
       = Some slots
    /\ drvdata st'
       = Build_iei_wt61p803_puzzle_hwmon
           (mcu (drvdata st)) (response_buffer (drvdata st)) present
           (lock (drvdata st))
    /\ cdev st' = slots
    /\ calls st'
       = calls st
         ++ [HcKmallocArray
               (u8 (fwnode_property_count_u8 fw child "cooling-levels")) 1;
             HcReadLevels
               (u8 (fwnode_property_count_u8 fw child "cooling-levels"));
             HcCoolingRegister
               (Build_iei_wt61p803_puzzle_thermal_cooling_device
                  (cooling_device_name ch) 0 levels)].
Proof.
  intros H. enable_inversion H; apply pair_equal_spec in H as [H1 H2];
    try discriminate H1; try (injection H1 as H1);
    try (cbv in H1; discriminate H1);
    repeat match goal with
           | E : negb (_ =? 0) = true |- _ => apply negb_eqb_true in E
           | E : negb (_ =? 0) = false |- _ => apply negb_eqb_false in E
           | E : IS_ERR _ = true |- _ => apply IS_ERR_nonzero in E
           end;
    try congruence.
  subst. unfold set_cdev, log_call, set_host, set_present in *.
  cbn [drvdata cdev host calls] in *.
  exists z0, l, l0, l1. rewrite <- !app_assoc. cbn [app].
  repeat split; assumption.
Qed.

Lemma index_store_true (a a' : list bool) (i j : Z) :
  store a i true = Some a' ->
  index a j = Some true -> index a' j = Some true.
Proof.
  intros Hs Hj. destruct (Z.eq_dec j i) as [->|Hne].
  - apply (index_store_same _ _ _ _ Hs).
  - rewrite (index_store_other _ _ _ _ _ Hs Hne). exact Hj.
Qed.

(** What every binding keeps, however it ends. *)
Lemma enable_frame (child : fwnode_handle) (st st' : pstate) (r : result Z) :
  iei_wt61p803_puzzle_enable_thermal_cooling_dev child st = (r, st') ->
  probe_progress st st'
  /\ (r <> Done 0 -> cdev st' = cdev st)
  /\ (forall ch e,
         r = Done e ->
         fwnode_property_read_u32 fw child "reg" = (0, ch) ->
         index (thermal_cooling_dev_present (drvdata st')) ch = Some true).
Proof.
  unfold probe_progress.
  intros H. enable_inversion H; apply pair_equal_spec in H as [H1 H2];
    subst r st'; unfold set_cdev, log_call, set_host, set_present in *;
    cbn [drvdata cdev host calls mcu response_buffer lock
         thermal_cooling_dev_present] in *;
    repeat match goal with
           | E : negb (_ =? 0) = true |- _ => apply negb_eqb_true in E
           | E : negb (_ =? 0) = false |- _ => apply negb_eqb_false in E
           end;
    repeat match goal with
           | |- _ /\ _ => split
           end;
    try reflexivity;
    try (eapply store_length; eassumption);
    try (intros j Hj; first [exact Hj | eapply index_store_true; eassumption]);
    try (intros Hr; first [reflexivity | exfalso; apply Hr; reflexivity]);
    try (intros ch e He Hreg; first [discriminate He |
           rewrite Hreg in *;
           match goal with
           | E : (_, _) = (_, _) |- _ => injection E as ? ?; subst
           end;
           first [congruence | eapply index_store_same; eassumption]]);
    try (rewrite <- ?app_assoc; eexists; split; [try reflexivity|];
         first [reflexivity | symmetry; apply app_nil_r]).
Qed.

Lemma two_slots (n : nat) (ch : Z) :
  n = 2%nat -> 0 <= ch < Z.of_nat n -> ch = 0 \/ ch = 1.
Proof. intros -> H. lia. Qed.

Lemma int_of_u32_small (ch : Z) : ch = 0 \/ ch = 1 -> int_of_u32 ch = ch.
Proof. intros [->| ->]; reflexivity. Qed.

(** A successful binding keeps the slots consistent and binds its child. *)
Lemma enable_success_bound (child : fwnode_handle) (st st' : pstate) :
  length (thermal_cooling_dev_present (drvdata st)) = 2%nat ->
  length (cdev st) = 2%nat ->
  iei_wt61p803_puzzle_enable_thermal_cooling_dev child st = (Done 0, st') ->
  child_bound child st'
  /\ (slots_consistent (cdev st) -> slots_consistent (cdev st'))
  /\ (forall c, child_bound c st -> child_bound c st')
  /\ length (cooling_registrations (calls st'))
     = S (length (cooling_registrations (calls st))).
Proof.
  intros Hp Hc H.
  destruct (enable_success _ _ _ H)
    as (ch & present & levels & slots & Hreg & Hsp & Hlv & Hss & Hd & Hcd & Hcalls).
  assert (ch = 0 \/ ch = 1) as Hch
    by (eapply two_slots; [exact Hp | eapply store_range; exact Hsp]).
  rewrite (int_of_u32_small _ Hch) in Hss.
  split; [|split; [|split]].
  - unfold child_bound. rewrite Hd, Hcd. exists ch. eexists.
    cbn [thermal_cooling_dev_present].
    repeat split;
      [exact Hch | exact Hreg | eapply index_store_same; exact Hsp
      | eapply index_store_same; exact Hss | reflexivity | reflexivity].
  - intros Hok j rec Hj. rewrite Hcd in Hj.
    destruct (Z.eq_dec j ch) as [->|Hne].
    + rewrite (index_store_same _ _ _ _ Hss) in Hj.
      injection Hj as <-. split; reflexivity.
    + rewrite (index_store_other _ _ _ _ _ Hss Hne) in Hj. apply Hok, Hj.
  - intros c (ch' & rec & Hch' & Hreg' & Hpr & Hsl & Hpc & Hnm).
    unfold child_bound. rewrite Hd, Hcd. cbn [thermal_cooling_dev_present].
    destruct (Z.eq_dec ch' ch) as [->|Hne].
    + exists ch. eexists.
      repeat split;
        [exact Hch | exact Hreg' | eapply index_store_same; exact Hsp
        | eapply index_store_same; exact Hss | reflexivity | reflexivity].
    + exists ch', rec.
      repeat split;
        [exact Hch' | exact Hreg'
        | eapply index_store_true; [exact Hsp | exact Hpr]
        | rewrite (index_store_other _ _ _ _ _ Hss Hne); exact Hsl
        | exact Hpc | exact Hnm].
  - rewrite Hcalls.
    assert (forall cs d,
              length (cooling_registrations (cs ++ d))
              = (length (cooling_registrations cs)
                 + length (cooling_registrations d))%nat) as Happ.
    { induction cs as [|c cs IH]; intros d; [reflexivity|].
      destruct c; cbn [app cooling_registrations length]; rewrite IH;
        reflexivity. }
    rewrite Happ. cbn. lia.
Qed.

(** *** The loop over the children *)

Lemma probe_progress_refl (st : pstate) : probe_progress st st.
Proof.
  repeat split; try reflexivity; try (intros; assumption).
  exists []. split; [symmetry; apply app_nil_r|reflexivity].
Qed.

Lemma probe_progress_trans (st1 st2 st3 : pstate) :
  probe_progress st1 st2 -> probe_progress st2 st3 -> probe_progress st1 st3.
Proof.
  intros (B1 & B2 & B3 & B4 & B5 & B6 & m1 & B7 & B8)
         (A1 & A2 & A3 & A4 & A5 & A6 & m2 & A7 & A8).
  repeat split; try congruence.
  - intros j Hj. apply A5, B5, Hj.
  - exists (m1 ++ m2). split.
    + rewrite A7, B7, app_assoc. reflexivity.
    + rewrite existsb_app, B8, A8. reflexivity.
Qed.

Lemma for_each_child_node_step
  (child : fwnode_handle) (rest : list fwnode_handle) (st st' : pstate)
  (r : result Z) :
  for_each_child_node (child :: rest) st = (r, st') ->
  (exists st1,
      iei_wt61p803_puzzle_enable_thermal_cooling_dev child st = (Done 0, st1)
      /\ for_each_child_node rest st1 = (r, st'))
  \/ (iei_wt61p803_puzzle_enable_thermal_cooling_dev child st = (r, st')
      /\ r <> Done 0).
Proof.
  cbn [for_each_child_node].
  destruct (iei_wt61p803_puzzle_enable_thermal_cooling_dev child st)
    as [[e|] st1] eqn:He.
  - destruct (negb (e =? 0)) eqn:Hz.
    + intros H. injection H as <- <-. right. split; [reflexivity|].
      apply negb_eqb_true in Hz. congruence.
    + apply negb_eqb_false in Hz. subst e. intros H. left. eauto.
  - intros H. injection H as <- <-. right. split; [reflexivity|discriminate].
Qed.

Lemma for_each_child_node_frame (children : list fwnode_handle) :
  forall (st st' : pstate) (r : result Z),
    for_each_child_node children st = (r, st') -> probe_progress st st'.
Proof.
  induction children as [|child rest IH]; intros st st' r H.
  - injection H as <- <-. apply probe_progress_refl.
  - destruct (for_each_child_node_step _ _ _ _ _ H) as [(st1 & He & Hrest)|[He _]].
    + eapply probe_progress_trans;
        [apply (enable_frame _ _ _ _ He) | apply (IH _ _ _ Hrest)].
    + apply (enable_frame _ _ _ _ He).
Qed.

Lemma for_each_child_node_success (children : list fwnode_handle) :
  forall st st' : pstate,
    length (thermal_cooling_dev_present (drvdata st)) = 2%nat ->
    length (cdev st) = 2%nat ->
    slots_consistent (cdev st) ->
    for_each_child_node children st = (Done 0, st') ->
    Forall (fun c => child_bound c st') children
    /\ slots_consistent (cdev st')
    /\ (forall c, child_bound c st -> child_bound c st')
    /\ length (cooling_registrations (calls st'))
       = (length (cooling_registrations (calls st)) + length children)%nat.
Proof.
  induction children as [|child rest IH]; intros st st' Hp Hc Hok H.
  - injection H as <-. cbn [length]. rewrite Nat.add_0_r.
    split; [constructor|split; [exact Hok|split; [auto|reflexivity]]].
  - destruct (for_each_child_node_step _ _ _ _ _ H)
      as [(st1 & He & Hrest)|[_ Hne]]; [|congruence].
    destruct (enable_success_bound _ _ _ Hp Hc He) as (Hb & Hs & Hk & Hn).
    destruct (enable_frame _ _ _ _ He) as ((_ & _ & _ & Hp1 & _ & Hc1 & _) & _).
    rewrite Hp in Hp1. rewrite Hc in Hc1.
    destruct (IH _ _ Hp1 Hc1 (Hs Hok) Hrest) as (Hall & Hs' & Hk' & Hn').
    split; [|split; [|split]].
    + constructor; [apply Hk', Hb | exact Hall].
    + exact Hs'.
    + intros c Hcb. apply Hk', Hk, Hcb.
    + rewrite Hn', Hn. cbn [length]. lia.
Qed.

(** *** Properties of the exchanges *)

(** X1: when the transport returns a non-zero value, each of the four
    exchanges returns that value unchanged and stores nothing; the command
    is the only access to the response buffer: no byte of it is read. *)
Theorem bus_error_is_returned (v : verb) (s : hwmon) (channel value : Z) :
  bus_ret (bus_reply s (request v channel value)) <> 0 ->
  outcome (exchange v channel value s)
    = Done (bus_ret (bus_reply s (request v channel value)), None)
  /\ trace (exchange v channel value s)
     = [EvCommand (match v with ReadPwm => lock s | _ => true end)
          (request v channel value)].
Proof.
  intros Hret. apply Z.eqb_neq in Hret.
  destruct v; run_driver; cbv [request] in Hret; run_driver;
    rewrite Hret; driver_simpl; split; reflexivity.
Qed.

(** X2: the temperature read, the fan read and the PWM write touch the
    response buffer only with the mutex held, whatever the transport
    answers, and whenever they return (also through an error exit) the mutex
    is free again. *)
Theorem locked_exchanges_hold_and_release (s : hwmon) (channel val : Z) :
  (trace_locked (trace (iei_wt61p803_puzzle_read_temp_sensor channel s)) = true
   /\ match outcome (iei_wt61p803_puzzle_read_temp_sensor channel s) with
      | Done _ =>
          lock (final (iei_wt61p803_puzzle_read_temp_sensor channel s)) = false
      | Undefined => True
      end)
  /\ (trace_locked (trace (iei_wt61p803_puzzle_read_fan_speed channel s)) = true
      /\ match outcome (iei_wt61p803_puzzle_read_fan_speed channel s) with
         | Done _ =>
             lock (final (iei_wt61p803_puzzle_read_fan_speed channel s)) = false
         | Undefined => True
         end)
  /\ (trace_locked
        (trace (iei_wt61p803_puzzle_write_pwm_channel channel val s)) = true
      /\ match outcome (iei_wt61p803_puzzle_write_pwm_channel channel val s) with
         | Done _ =>
             lock (final (iei_wt61p803_puzzle_write_pwm_channel channel val s))
             = false
         | Undefined => True
         end).
Proof.
  split; [|split]; run_driver; driver_cases; split;
    first [reflexivity | exact I].
Qed.

(** X4: a reading function returns 0 exactly when it has stored a value
    through its output argument; so [get_cur_state] never uses its local
    [value] uninitialised: it is undefined only where the PWM read is. *)
Theorem zero_return_iff_stored
  (s : hwmon) (cdev : iei_wt61p803_puzzle_thermal_cooling_device) (channel : Z) :
  match outcome (iei_wt61p803_puzzle_read_temp_sensor channel s) with
  | Done (r, out) => r = 0 <-> out <> None
  | Undefined => True
  end
  /\ match outcome (iei_wt61p803_puzzle_read_fan_speed channel s) with
     | Done (r, out) => r = 0 <-> out <> None
     | Undefined => True
     end
  /\ match outcome (iei_wt61p803_puzzle_read_pwm_channel channel s) with
     | Done (r, out) => r = 0 <-> out <> None
     | Undefined => True
     end
  /\ match outcome (iei_wt61p803_puzzle_get_cur_state cdev s) with
     | Done (r, out) => r = 0 <-> out <> None
     | Undefined =>
         outcome (iei_wt61p803_puzzle_read_pwm_channel (pwm_channel cdev) s)
         = Undefined
     end.
Proof.
  split; [|split; [|split]]; run_driver; driver_cases;
    try discriminate; try exact I; try reflexivity;
    repeat match goal with
           | E : negb (_ =? 0) = true |- _ => apply negb_eqb_true in E
           | E : negb (_ =? 0) = false |- _ => apply negb_eqb_false in E
           end;
    (split; intros Hx; [try congruence; try (cbv in Hx; discriminate Hx)
                       |try reflexivity; try congruence;
                        exfalso; apply Hx; reflexivity]).
Qed.

(** On bytes, [(x << 8) | y] is [256 x + y]. *)
Lemma lor_shiftl_bytes (x y : Z) :
  0 <= x <= 255 -> 0 <= y <= 255 -> Z.lor (Z.shiftl x 8) y = 256 * x + y.
Proof.
  intros Hx Hy.
  set (bytes := map Z.of_nat (seq 0 256)).
  assert (forall b, 0 <= b <= 255 -> In b bytes) as Hin.
  { intros b Hb. replace b with (Z.of_nat (Z.to_nat b)) by lia.
    apply in_map, in_seq. lia. }
  assert (forallb
            (fun h => forallb
                        (fun l => Z.lor (Z.shiftl h 8) l =? 256 * h + l) bytes)
            bytes = true) as Hall by (vm_compute; reflexivity).
  rewrite forallb_forall in Hall. specialize (Hall x (Hin x Hx)).
  rewrite forallb_forall in Hall. specialize (Hall y (Hin y Hy)).
  apply Z.eqb_eq, Hall.
Qed.

(** X5: on reply bytes the fan conversion is [(256 hi + lo) / 2 * 60], it
    lies between 0 and 1966020, and so it fits a 32-bit [int]. *)
Theorem raw_fan_val_to_rpm_bytes (hi lo : Z) :
  0 <= hi <= 255 -> 0 <= lo <= 255 ->
  raw_fan_val_to_rpm hi lo = (256 * hi + lo) / 2 * 60
  /\ 0 <= raw_fan_val_to_rpm hi lo <= 1966020
  /\ raw_fan_val_to_rpm hi lo < 2 ^ 31.
Proof.
  intros Hhi Hlo. unfold raw_fan_val_to_rpm.
  rewrite (lor_shiftl_bytes _ _ Hhi Hlo).
  rewrite Z.quot_div_nonneg by lia.
  assert (0 <= (256 * hi + lo) / 2 <= 32767) as Hq.
  { split; [apply Z.div_pos; lia|].
    assert ((256 * hi + lo) / 2 < 32768)
      by (apply Z.div_lt_upper_bound; lia).
    lia. }
  repeat split; lia.
Qed.

(** X6: the visibility rule grants a write permission bit in one case
    only: kind pwm, attribute [hwmon_pwm_input], on a channel whose presence
    flag is clear; the mode is then 0644. *)
Theorem write_bit_only_for_free_pwm_input
  (data : hwmon) (type : hwmon_sensor_types) (attr channel m : Z) :
  iei_wt61p803_puzzle_is_visible data type attr channel = Done m ->
  Z.land m mode_0222 <> 0 ->
  type = hwmon_pwm
  /\ attr = hwmon_pwm_input attrs
  /\ index (thermal_cooling_dev_present data) channel = Some false
  /\ m = mode_0644.
Proof.
  unfold iei_wt61p803_puzzle_is_visible. intros H Hw.
  destruct type;
    repeat match type of H with
           | context [match ?x with _ => _ end] => destruct x eqn:?
           end;
    try discriminate H; injection H as <-;
    try (exfalso; apply Hw; reflexivity).
  repeat split. apply Z.eqb_eq. assumption.
Qed.

(** X7: through the cooling-device callbacks, for any state [st]: when the
    write is acknowledged by a well-formed reply and the reply to the
    following PWM read is well-formed and carries the duty byte of that
    write, [set_cur_state st] returns 0 and [get_cur_state] then reports
    [st mod 256]: states above 255 do not read back as written. *)
Theorem cooling_state_round_trip
  (s : hwmon) (cdev : iei_wt61p803_puzzle_thermal_cooling_device) (st : Z) :
  let ch := pwm_channel cdev in
  let w := bus_reply s (pwm_set_cmd ch (ulong_to_long st)) in
  bus_ret w = 0 -> bus_len w = 3 ->
  index (bus_buf w) 0 = Some (IEI_WT61P803_PUZZLE_CMD_HEADER_START cmds) ->
  index (bus_buf w) 1 = Some (IEI_WT61P803_PUZZLE_CMD_RESPONSE_OK cmds) ->
  index (bus_buf w) 2 = Some (IEI_WT61P803_PUZZLE_CHECKSUM_RESPONSE_OK cmds) ->
  let r := bus_reply (after_exchange s w) (pwm_get_cmd ch) in
  bus_ret r = 0 -> bus_len r = 5 ->
  index (bus_buf r) 2 = Some (IEI_WT61P803_PUZZLE_CMD_FAN_PWM_READ cmds) ->
  index (bus_buf r) 3 = index (pwm_set_cmd ch (ulong_to_long st)) 4 ->
  outcome (iei_wt61p803_puzzle_set_cur_state cdev st s) = Done 0
  /\ outcome (iei_wt61p803_puzzle_get_cur_state cdev
                (final (iei_wt61p803_puzzle_set_cur_state cdev st s)))
     = Done (0, Some (st mod 256)).
Proof.
  intros ch w Hwret Hwlen Hw0 Hw1 Hw2 r Hrret Hrlen Hr2 Hecho.
  pose proof (write_pwm_channel_ok s ch (ulong_to_long st)
                Hwret Hwlen Hw0 Hw1 Hw2) as Hwrite.
  fold w in Hwrite.
  assert (index (bus_buf r) 3 = Some (st mod 256)) as Hr3.
  { rewrite Hecho, pwm_set_cmd_duty, u8_ulong_to_long. reflexivity. }
  pose proof (read_pwm_channel_ok (after_exchange s w) ch (st mod 256)
                Hrret Hrlen Hr2 Hr3) as Hread.
  unfold iei_wt61p803_puzzle_set_cur_state. fold ch. rewrite Hwrite.
  split; [reflexivity|].
  unfold iei_wt61p803_puzzle_get_cur_state, bind. fold ch.
  cbn [final fst snd]. rewrite Hread. cbn.
  unfold long_to_ulong. rewrite Z.mod_small; [reflexivity|].
  pose proof (Z.mod_pos_bound st 256). lia.
Qed.

(** *** Properties of probe *)

Lemma cooling_registrations_app (a b : list host_call) :
  cooling_registrations (a ++ b)
  = cooling_registrations a ++ cooling_registrations b.
Proof.
  induction a as [|c a IH]; [reflexivity|].
  destruct c; cbn [app cooling_registrations]; rewrite IH; reflexivity.
Qed.

Lemma cooling_device_name_small (ch : Z) :
  ch = 0 \/ ch = 1 ->
  cooling_device_name ch = cstring "wt61p803_puzzle_" ++ [48 + ch].
Proof. intros [->| ->]; reflexivity. Qed.

(** How probe runs: the context allocation fails, or the hwmon registration
    fails, or the children are skipped, or they are bound from
    [probe_start]. *)
Lemma probe_cases (m : MCU) (children : list fwnode_handle) (h : HOST) :
  (exists h1,
      iei_wt61p803_puzzle_hwmon_probe m children h = NoContext (- ENOMEM) h1)
  \/ (exists h2 p,
         IS_ERR p = true
         /\ iei_wt61p803_puzzle_hwmon_probe m children h
            = Probed (Done p) (probe_start m h2))
  \/ (exists h2,
         CONFIG_THERMAL = false
         /\ iei_wt61p803_puzzle_hwmon_probe m children h
            = Probed (Done 0) (probe_start m h2))
  \/ (exists h2 r st,
         CONFIG_THERMAL = true
         /\ for_each_child_node children (probe_start m h2) = (r, st)
         /\ iei_wt61p803_puzzle_hwmon_probe m children h = Probed r st).
Proof.
  unfold iei_wt61p803_puzzle_hwmon_probe, hwmon_register.
  destruct (devm_kzalloc api h) as [h1 ok]. destruct ok; cbn [negb].
  - destruct (devm_hwmon_device_register_with_info api h1 (zeroed_hwmon m))
      as [h2 p].
    fold (probe_start m h2).
    destruct (IS_ERR p) eqn:Hp; [right; left; eauto|].
    destruct CONFIG_THERMAL eqn:Hc; [|right; right; left; eauto].
    destruct (for_each_child_node children (probe_start m h2)) as [r st] eqn:Hf.
    right. right. right. exists h2, r, st. auto.
  - left. eauto.
Qed.

(** X8: when the binding of a child returns 0 on a context with two
    presence flags and two slots, the child's [reg] was read as channel 0 or
    1; that channel's presence flag is set and its slot holds a record named
    wt61p803_puzzle_<channel> with that channel and the cooling levels read
    from firmware; the other flag and slot are unchanged.  The record was
    handed to the thermal framework before its channel was assigned: the
    registration saw [pwm_channel] 0 whatever [reg] is. *)
Theorem cooling_binding_success
  (child : fwnode_handle) (st st' : pstate) :
  length (thermal_cooling_dev_present (drvdata st)) = 2%nat ->
  length (cdev st) = 2%nat ->
  iei_wt61p803_puzzle_enable_thermal_cooling_dev child st = (Done 0, st') ->
  exists ch levels,
    (ch = 0 \/ ch = 1)
    /\ fwnode_property_read_u32 fw child "reg" = (0, ch)
    /\ fwnode_property_read_u8_array fw child "cooling-levels"
         (fwnode_property_count_u8 fw child "cooling-levels" mod 256)
       = (0, levels)
    /\ index (thermal_cooling_dev_present (drvdata st')) ch = Some true
    /\ index (cdev st') ch
       = Some (Some (Build_iei_wt61p803_puzzle_thermal_cooling_device
                       (cstring "wt61p803_puzzle_" ++ [48 + ch]) ch levels))
    /\ (forall j, j <> ch ->
          index (thermal_cooling_dev_present (drvdata st')) j
          = index (thermal_cooling_dev_present (drvdata st)) j
          /\ index (cdev st') j = index (cdev st) j)
    /\ cooling_registrations (calls st')
       = cooling_registrations (calls st)
         ++ [Build_iei_wt61p803_puzzle_thermal_cooling_device
               (cstring "wt61p803_puzzle_" ++ [48 + ch]) 0 levels].
Proof.
  intros Hp Hc H.
  destruct (enable_success _ _ _ H)
    as (ch & present & levels & slots & Hreg & Hsp & Hlv & Hss & Hd & Hcd & Hcalls).
  assert (ch = 0 \/ ch = 1) as Hch
    by (eapply two_slots; [exact Hp | eapply store_range; exact Hsp]).
  rewrite (int_of_u32_small _ Hch), (cooling_device_name_small _ Hch) in Hss.
  rewrite (cooling_device_name_small _ Hch) in Hcalls.
  exists ch, levels. rewrite Hd, Hcd, Hcalls.
  cbn [thermal_cooling_dev_present].
  split; [exact Hch|]. split; [exact Hreg|]. split; [exact Hlv|].
  split; [eapply index_store_same; exact Hsp|].
  split; [eapply index_store_same; exact Hss|].
  split.
  - intros j Hj. split; eapply index_store_other; eassumption.
  - rewrite cooling_registrations_app. reflexivity.
Qed.

(** X9: when the binding of a child fails after its [reg] was read, the
    presence flag of that channel is set all the same (it is written before
    the cooling levels are looked at) while no record is installed; like
    every binding, it clears no presence flag and leaves the MCU handle, the
    response buffer and the mutex alone. *)
Theorem failed_binding_keeps_flag
  (child : fwnode_handle) (st st' : pstate) (ch e : Z) :
  iei_wt61p803_puzzle_enable_thermal_cooling_dev child st = (Done e, st') ->
  e <> 0 ->
  fwnode_property_read_u32 fw child "reg" = (0, ch) ->
  index (thermal_cooling_dev_present (drvdata st')) ch = Some true
  /\ cdev st' = cdev st
  /\ probe_progress st st'.
Proof.
  intros H He Hreg.
  destruct (enable_frame _ _ _ _ H) as (Hprog & Hslots & Hflag).
  split; [eapply Hflag; [reflexivity|exact Hreg]|].
  split; [apply Hslots; congruence|exact Hprog].
Qed.

(** X10: the number of cooling levels is the firmware's count converted to
    [u8].  With [reg] readable and in range: a count that is a multiple of
    256 makes the binding fail with [-EINVAL] before anything is allocated;
    any other count, a negative error code included, passes the test: once
    the record is allocated, [count mod 256] bytes are asked of the
    allocator, and every read of the levels that the binding issues asks for
    [count mod 256] bytes. *)
Theorem levels_count_is_truncated
  (child : fwnode_handle) (st st' : pstate) (r : result Z) (ch : Z) :
  iei_wt61p803_puzzle_enable_thermal_cooling_dev child st = (r, st') ->
  fwnode_property_read_u32 fw child "reg" = (0, ch) ->
  0 <= ch < Z.of_nat (length (thermal_cooling_dev_present (drvdata st))) ->
  (fwnode_property_count_u8 fw child "cooling-levels" mod 256 = 0 ->
   r = Done (- EINVAL) /\ calls st' = calls st /\ host st' = host st)
  /\ (fwnode_property_count_u8 fw child "cooling-levels" mod 256 <> 0 ->
      forall h1,
        devm_kzalloc api (host st) = (h1, true) ->
        In (HcKmallocArray
              (fwnode_property_count_u8 fw child "cooling-levels" mod 256) 1)
           (calls st'))
  /\ (forall n,
         In (HcReadLevels n) (calls st') ->
         In (HcReadLevels n) (calls st)
         \/ n = fwnode_property_count_u8 fw child "cooling-levels" mod 256).
Proof.
  intros H Hreg Hch.
  assert (store (thermal_cooling_dev_present (drvdata st)) ch true <> None)
    as Hstore.
  { unfold store.
    destruct ((ch <? 0)
              || (Z.of_nat (length (thermal_cooling_dev_present (drvdata st)))
                  <=? ch)) eqn:E; [|discriminate].
    apply orb_prop in E as [E|E]; lia. }
  enable_inversion H; apply pair_equal_spec in H as [H1 H2]; subst r st';
    unfold set_cdev, log_call, set_host, set_present, u8 in *;
    cbn [drvdata cdev host calls] in *;
    rewrite Hreg in *;
    match goal with
    | E : (_, _) = (_, _) |- _ => injection E as ? ?; subst
    end;
    try congruence;
    repeat match goal with
           | E : negb (_ =? 0) = true |- _ => apply negb_eqb_true in E
           | E : negb (_ =? 0) = false |- _ => apply negb_eqb_false in E
           | E : (_ =? 0) = true |- _ => apply Z.eqb_eq in E
           | E : (_ =? 0) = false |- _ => apply Z.eqb_neq in E
           | E : negb ?b = true |- _ => apply negb_true_iff in E; subst b
           | E : negb ?b = false |- _ => apply negb_false_iff in E; subst b
           end;
    (split; [intros Hz; first [congruence | repeat split; reflexivity]|]);
    (split; [intros Hnz h1' Hk;
             first [congruence
                   | rewrite ?in_app_iff; cbn [In]; tauto]|]);
    intros n Hin; rewrite ?in_app_iff in Hin; cbn [In] in Hin;
    intuition (try discriminate; try congruence).
Qed.

Lemma for_each_child_node_app (pre post : list fwnode_handle) :
  forall (st st1 : pstate),
    for_each_child_node pre st = (Done 0, st1) ->
    for_each_child_node (pre ++ post) st = for_each_child_node post st1.
Proof.
  induction pre as [|c pre IH]; intros st st1 H.
  - injection H as <-. reflexivity.
  - destruct (for_each_child_node_step _ _ _ _ _ H)
      as [(st0 & He & Hrest)|[_ Hne]]; [|congruence].
    cbn [app for_each_child_node]. rewrite He. cbn [negb Z.eqb].
    apply IH, Hrest.
Qed.

(** X11: probe stops at the first child whose binding fails.  With
    [CONFIG_THERMAL], if probe succeeds on the children [pre] and the binding
    of [child] in the state reached returns a non-zero [e], then probe on
    [pre], [child] and any further children returns [e] in the state that
    binding left: the further children are never looked at. *)
Theorem probe_stops_at_first_failure
  (m : MCU) (h : HOST) (pre post : list fwnode_handle)
  (child : fwnode_handle) (st1 st2 : pstate) (e : Z) :
  CONFIG_THERMAL = true ->
  iei_wt61p803_puzzle_hwmon_probe m pre h = Probed (Done 0) st1 ->
  iei_wt61p803_puzzle_enable_thermal_cooling_dev child st1 = (Done e, st2) ->
  e <> 0 ->
  iei_wt61p803_puzzle_hwmon_probe m (pre ++ child :: post) h
  = Probed (Done e) st2.
Proof.
  intros Hc Hpre He Hne.
  unfold iei_wt61p803_puzzle_hwmon_probe, hwmon_register in *.
  destruct (devm_kzalloc api h) as [h1 ok]. destruct ok; [|discriminate Hpre].
  cbn [negb] in *.
  destruct (devm_hwmon_device_register_with_info api h1 (zeroed_hwmon m))
    as [h2 p].
  fold (probe_start m h2) in *.
  destruct (IS_ERR p) eqn:Hp.
  - injection Hpre as Hp0 _. apply IS_ERR_nonzero in Hp. congruence.
  - rewrite Hc in *.
    destruct (for_each_child_node pre (probe_start m h2)) as [r st] eqn:Hf.
    injection Hpre as -> ->.
    rewrite (for_each_child_node_app _ (child :: post) _ _ Hf).
    cbn [for_each_child_node]. rewrite He.
    apply Z.eqb_neq in Hne. rewrite Hne. reflexivity.
Qed.

(** X12: with [CONFIG_THERMAL], when probe returns 0 every child is bound:
    its [reg] is channel 0 or 1, that channel's presence flag is set and its
    slot holds a record of that channel; one cooling device was registered
    per child; the context has the MCU of the parent and a free mutex.  In
    the context probe leaves, the PWM input of each child's channel is
    reported read-only (0444) by the visibility rule, and [set_cur_state] on
    the installed record writes the PWM of that channel. *)
Theorem probe_success_binds_every_child
  (m : MCU) (h : HOST) (children : list fwnode_handle) (st : pstate) :
  CONFIG_THERMAL = true ->
  iei_wt61p803_puzzle_hwmon_probe m children h = Probed (Done 0) st ->
  Forall (fun c => child_bound c st) children
  /\ length (cooling_registrations (calls st)) = length children
  /\ mcu (drvdata st) = m
  /\ lock (drvdata st) = false
  /\ (forall c, In c children ->
        exists ch rec,
          fwnode_property_read_u32 fw c "reg" = (0, ch)
          /\ index (cdev st) ch = Some (Some rec)
          /\ (forall attr,
                 iei_wt61p803_puzzle_is_visible (drvdata st) hwmon_pwm attr ch
                 = Done mode_0444)
          /\ (forall s v,
                 commands_of
                   (trace (iei_wt61p803_puzzle_set_cur_state rec v s))
                 = [pwm_set_cmd ch v])).
Proof.
  intros Hc H.
  destruct (probe_cases m children h)
    as [(h1 & E)|[(h2 & p & Hp & E)|[(h2 & Hc' & E)|(h2 & r & st0 & _ & Hf & E)]]];
    rewrite E in H; try discriminate H.
  - injection H as Hp0 _. apply IS_ERR_nonzero in Hp. congruence.
  - congruence.
  - injection H as -> ->.
    destruct (for_each_child_node_success children (probe_start m h2) st
                eq_refl eq_refl) as (Hall & _ & _ & Hn); [|exact Hf|].
    { intros j rec Hj. exfalso. unfold index in Hj. cbn in Hj.
      destruct (j <? 0); [discriminate|].
      destruct (Z.to_nat j) as [|[|[|k]]]; discriminate Hj. }
    destruct (for_each_child_node_frame _ _ _ _ Hf)
      as (Hm & _ & Hl & _).
    split; [exact Hall|]. split; [exact Hn|]. split; [exact Hm|].
    split; [exact Hl|].
    intros c Hin. rewrite Forall_forall in Hall.
    destruct (Hall c Hin) as (ch & rec & Hch & Hreg & Hpr & Hsl & Hpc & Hnm).
    exists ch, rec. split; [exact Hreg|]. split; [exact Hsl|]. split.
    + intros attr. apply is_visible_pwm_owned, Hpr.
    + intros s v. unfold iei_wt61p803_puzzle_set_cur_state.
      rewrite write_pwm_channel_commands, pwm_set_cmd_ulong, Hpc. reflexivity.
Qed.

(** X13: once its context is allocated, probe registers the hwmon device
    exactly once and before any child is looked at: that registration comes
    ahead of every allocation and read of cooling levels and of every
    cooling-device registration, and the context it passes has all presence
    flags clear, whatever the children are; the visibility rule evaluated on
    that context reports both PWM inputs read-write (0644).  Without a
    context probe returns [-ENOMEM]. *)
Theorem probe_registers_hwmon_before_children
  (m : MCU) (h : HOST) (children : list fwnode_handle) :
  match iei_wt61p803_puzzle_hwmon_probe m children h with
  | NoContext e _ => e = - ENOMEM
  | Probed r st =>
      exists more,
        calls st = HcHwmonRegister [false; false] :: more
        /\ existsb is_hwmon_register more = false
  end
  /\ iei_wt61p803_puzzle_is_visible (zeroed_hwmon m) hwmon_pwm
       (hwmon_pwm_input attrs) 0 = Done mode_0644
  /\ iei_wt61p803_puzzle_is_visible (zeroed_hwmon m) hwmon_pwm
       (hwmon_pwm_input attrs) 1 = Done mode_0644.
Proof.
  split.
  - destruct (probe_cases m children h)
      as [(h1 & E)|[(h2 & p & Hp & E)|[(h2 & Hc' & E)|(h2 & r & st0 & _ & Hf & E)]]];
      rewrite E; try reflexivity;
      try (exists []; split; reflexivity).
    destruct (for_each_child_node_frame _ _ _ _ Hf)
      as (_ & _ & _ & _ & _ & _ & more & Hcalls & Hmore).
    exists more. split; [exact Hcalls | exact Hmore].
  - split; unfold iei_wt61p803_puzzle_is_visible; cbn;
      rewrite Z.eqb_refl; reflexivity.
Qed.

(** X14: the PWM index read from [reg] is not checked against the two
    entries of the presence vector: for an index at or beyond its length the
    flag would be written outside the array, so the binding is undefined and
    nothing has been validated or allocated by then. *)
Theorem unchecked_reg_is_undefined
  (child : fwnode_handle) (st : pstate) (ch : Z) :
  fwnode_property_read_u32 fw child "reg" = (0, ch) ->
  Z.of_nat (length (thermal_cooling_dev_present (drvdata st))) <= ch ->
  iei_wt61p803_puzzle_enable_thermal_cooling_dev child st = (Undefined, st).
Proof.
  intros Hreg Hch. unfold iei_wt61p803_puzzle_enable_thermal_cooling_dev.
  rewrite Hreg. cbn [negb Z.eqb].
  rewrite store_none by (right; exact Hch). reflexivity.
Qed.

(** X15: no exchange changes the presence vector, whatever the transport
    does; so what the visibility rule reports is the same before and after
    any read or write. *)
Theorem exchanges_keep_presence
  (v : verb) (s : hwmon) (channel value : Z)
  (type : hwmon_sensor_types) (attr c : Z) :
  thermal_cooling_dev_present (final (exchange v channel value s))
  = thermal_cooling_dev_present s
  /\ iei_wt61p803_puzzle_is_visible (final (exchange v channel value s))
       type attr c
     = iei_wt61p803_puzzle_is_visible s type attr c.
Proof.
  assert (thermal_cooling_dev_present (final (exchange v channel value s))
          = thermal_cooling_dev_present s) as H
    by (destruct v; run_driver; driver_cases; reflexivity).
  split; [exact H|]. unfold iei_wt61p803_puzzle_is_visible. rewrite H.
  reflexivity.
Qed.

End Driver.

(** ** The driver on the test MCUs *)

(** Witness of C2: scenario S1, [temp2_input] is -16000. *)
Lemma read_temp_milli_celsius_witness :
  outcome (iei_wt61p803_puzzle_read wt61p803_commands _ scripted_transport
             hwmon_temp 1 1 (fresh_hwmon [temp_frame] [false; false]))
  = Done (0, Some (-16000)).
Proof.
  refine (proj1 (proj2
            (read_temp_milli_celsius wt61p803_commands _ scripted_transport
               (fresh_hwmon [temp_frame] [false; false]) 1 1 112 _ _ _ _ _)));
    first [right; reflexivity | reflexivity].
Defined.

(** Witness of C3: scenario S2, [fan4_input] is 12000. *)
Lemma read_fan_speed_rpm_witness :
  outcome (iei_wt61p803_puzzle_read wt61p803_commands _ scripted_transport
             hwmon_fan 1 3 (fresh_hwmon [fan_frame] [false; false]))
  = Done (0, Some 12000).
Proof.
  refine (proj1 (proj2
            (read_fan_speed_rpm wt61p803_commands _ scripted_transport
               (fresh_hwmon [fan_frame] [false; false]) 1 3 1 144 _ _ _ _)));
    reflexivity.
Defined.

(** Witness of C4: scenario S5 (six bytes instead of seven), and a PWM write
    whose acknowledgement has a wrong third byte. *)
Lemma framing_error_is_eio_witness :
  outcome (exchange wt61p803_commands _ scripted_transport ReadTemps 0 0
             (fresh_hwmon [short_temp_frame] [false; false]))
  = Done (- EIO, None)
  /\ outcome (exchange wt61p803_commands _ scripted_transport WritePwm 0 128
                (fresh_hwmon [bad_ack_frame] [false; false]))
     = Done (- EIO, None).
Proof.
  split.
  - apply (framing_error_is_eio wt61p803_commands _ scripted_transport
             ReadTemps (fresh_hwmon [short_temp_frame] [false; false]) 0 0).
    + reflexivity.
    + vm_compute. lia.
    + reflexivity.
  - apply (framing_error_is_eio wt61p803_commands _ scripted_transport
             WritePwm (fresh_hwmon [bad_ack_frame] [false; false]) 0 128).
    + reflexivity.
    + vm_compute. lia.
    + reflexivity.
Defined.

(** Witness of C7: the duty-keeping MCU, duty 128 on PWM channel 1. *)
Lemma pwm_write_read_round_trip_witness :
  let s := fresh_hwmon (fun _ : Z => 0) [false; false] in
  let run := iei_wt61p803_puzzle_write wt61p803_commands _ echo_transport
               hwmon_pwm 0 1 128 s in
  outcome run = Done 0
  /\ outcome (iei_wt61p803_puzzle_read wt61p803_commands _ echo_transport
                hwmon_pwm 0 1 (final run))
     = Done (0, Some 128).
Proof.
  intros s run.
  destruct (pwm_write_read_round_trip wt61p803_commands _ echo_transport
              s hwmon_pwm 0 1 128)
    as [Hw [Hs Hr]];
    try reflexivity; [lia|].
  split; [exact Hw|]. unfold run. rewrite Hs. exact Hr.
Defined.

(** Witness of C8: on the duty-keeping MCU holding duty 128 for PWM 0,
    [get_cur_state] reports 128, and on a scripted MCU that times out it
    returns the transport's error. *)
Lemma cooling_device_callbacks_witness :
  outcome (iei_wt61p803_puzzle_get_cur_state wt61p803_commands _ echo_transport
             cooling_device_0
             (fresh_hwmon (fun p : Z => if p =? 48 then 128 else 0) [true; false]))
  = Done (0, Some 128)
  /\ outcome (iei_wt61p803_puzzle_get_cur_state wt61p803_commands _
                scripted_transport cooling_device_0
                (fresh_hwmon [] [true; false]))
     = Done (- ETIMEDOUT, None).
Proof.
  split.
  - apply (proj2 (proj2 (proj2 (proj2 (proj2 (proj2
             (cooling_device_callbacks wt61p803_commands _ echo_transport
                (fresh_hwmon (fun p : Z => if p =? 48 then 128 else 0)
                   [true; false])
                cooling_device_0 hwmon_pwm 0 128))))))).
    + reflexivity.
    + lia.
  - apply (proj1 (proj2 (proj2 (proj2 (proj2 (proj2
             (cooling_device_callbacks wt61p803_commands _ scripted_transport
                (fresh_hwmon [] [true; false])
                cooling_device_0 hwmon_pwm 0 128))))))
            (- ETIMEDOUT) None).
    + reflexivity.
    + discriminate.
Defined.

(** Scenario S4: [set_cur_state 128] hands the transport the request of
    scenario S3. *)
Example set_cur_state_128_request :
  commands_of
    (trace (iei_wt61p803_puzzle_set_cur_state wt61p803_commands _ echo_transport
              cooling_device_0 128
              (fresh_hwmon (fun _ : Z => 0) [true; false])))
  = [[64; 70; 87; 48; 128; 0]].
Proof. reflexivity. Qed.

(** C1 on the code: the hwmon read of [pwm1_input], entered with the mutex
    free, lets the transport fill the response buffer and then reads bytes 2
    and 3 of it, all with the mutex not held. *)
Theorem read_pwm_channel_without_lock :
  let run := iei_wt61p803_puzzle_read wt61p803_commands _ echo_transport
               hwmon_pwm 0 0
               (fresh_hwmon (fun _ : Z => 77) [false; false]) in
  outcome run = Done (0, Some 77)
  /\ trace run = [EvCommand false [64; 70; 90; 48; 0];
                  EvRespRead false 2; EvRespRead false 3]
  /\ trace_locked (trace run) = false.
Proof. vm_compute. repeat split. Qed.

(** The sibling exchanges on the same device do hold the mutex. *)
Example read_fan_speed_with_lock :
  trace (iei_wt61p803_puzzle_read wt61p803_commands _ scripted_transport
           hwmon_fan 1 3 (fresh_hwmon [fan_frame] [false; false]))
  = [EvCommand true [64; 70; 68; 0]; EvRespRead true 3; EvRespRead true 4].
Proof. reflexivity. Qed.

(** C5 fails as stated: with PWM channel 0 owned by a cooling device, the
    attribute [hwmon_pwm_enable], which is not [hwmon_pwm_input], is
    reported with mode 0444 instead of being invisible. *)
Theorem is_visible_owned_pwm_other_attribute :
  iei_wt61p803_puzzle_is_visible linux_hwmon_attributes unit
    (fresh_hwmon tt [true; false]) hwmon_pwm hwmon_pwm_enable 0
  = Done mode_0444
  /\ hwmon_pwm_enable <> hwmon_pwm_input linux_hwmon_attributes
  /\ mode_0444 <> 0.
Proof. repeat split; discriminate. Qed.

(** Witness of C5: the input attribute of the PWM channel that is not owned
    is read-write. *)
Lemma is_visible_table_witness :
  iei_wt61p803_puzzle_is_visible linux_hwmon_attributes unit
    (fresh_hwmon tt [true; false]) hwmon_pwm
    (hwmon_pwm_input linux_hwmon_attributes) 1
  = Done mode_0644.
Proof.
  apply (is_visible_table linux_hwmon_attributes unit
           (fresh_hwmon tt [true; false]) hwmon_pwm
           (hwmon_pwm_input linux_hwmon_attributes) 1 false).
  intros _. reflexivity.
Defined.

(** The same attribute on the channel that is not owned is invisible. *)
Example is_visible_free_pwm_other_attribute :
  iei_wt61p803_puzzle_is_visible linux_hwmon_attributes unit
    (fresh_hwmon tt [true; false]) hwmon_pwm hwmon_pwm_enable 1
  = Done 0.
Proof. reflexivity. Qed.

(** C6 fails as stated: fan channel 7 (the layout has channels 0 to 4) and
    PWM channel 5 (the layout has 0 and 1) are not refused; a request built
    from the channel is handed to the transport and its reply is used. *)
Lemma out_of_range_channel_reaches_bus :
  let rd := iei_wt61p803_puzzle_read wt61p803_commands _ scripted_transport
              hwmon_fan 1 7 (fresh_hwmon [fan_frame] [false; false]) in
  let wr := iei_wt61p803_puzzle_write wt61p803_commands _ echo_transport
              hwmon_pwm 0 5 128 (fresh_hwmon (fun _ : Z => 0) [false; false]) in
  commands_of (trace rd) = [[64; 70; 72; 0]]
  /\ outcome rd = Done (0, Some 12000)
  /\ commands_of (trace wr) = [[64; 70; 87; 53; 128; 0]]
  /\ outcome wr = Done 0.
Proof. vm_compute. repeat split. Qed.

(** C9 fails as stated: the write of 300 is neither refused nor clamped to
    255; the request carries 44, which is 300 modulo 256, and the MCU ends
    up with that duty. *)
Lemma pwm_write_300_forwards_44 :
  let run := iei_wt61p803_puzzle_write wt61p803_commands _ echo_transport
               hwmon_pwm 0 0 300
               (fresh_hwmon (fun _ : Z => 0) [false; false]) in
  outcome run = Done 0
  /\ commands_of (trace run) = [[64; 70; 87; 48; 44; 0]]
  /\ 300 mod 256 = 44
  /\ mcu (final run) 48 = 44.
Proof. vm_compute. repeat split. Qed.

(** ** Probe and the further properties on the test MCUs and nodes *)

(** The device is the duty-keeping MCU; the host has eight allocations to
    give, of which the device context takes the first. *)
Local Abbreviation dt_mcu := (fun _ : Z => 0).
Local Abbreviation dt_host := (budget_host (Z -> Z)).
Local Abbreviation dt_enable :=
  (iei_wt61p803_puzzle_enable_thermal_cooling_dev (Z -> Z) dt_node dt_api nat
     dt_host).
Local Abbreviation dt_probe :=
  (iei_wt61p803_puzzle_hwmon_probe (Z -> Z) dt_node dt_api nat dt_host
     true 512 dt_mcu).
Local Abbreviation dt_start := (probe_start (Z -> Z) nat 512 dt_mcu 7%nat).

(** Witness of X1: a transport that times out, on the fan read. *)
Lemma bus_error_is_returned_witness :
  outcome (exchange wt61p803_commands _ scripted_transport ReadFanRpm 3 0
             (fresh_hwmon [] [false; false]))
  = Done (- ETIMEDOUT, None).
Proof.
  refine (proj1 (bus_error_is_returned wt61p803_commands _ scripted_transport
                   ReadFanRpm (fresh_hwmon [] [false; false]) 3 0 _)).
  vm_compute. discriminate.
Defined.

(** Witness of X3: the temperature frame of scenario S1, channel 1. *)
Lemma conforming_reply_succeeds_witness :
  exists out,
    outcome (exchange wt61p803_commands _ scripted_transport ReadTemps 1 0
               (fresh_hwmon [temp_frame] [false; false]))
    = Done (0, out).
Proof.
  apply (conforming_reply_succeeds wt61p803_commands _ scripted_transport
           ReadTemps (fresh_hwmon [temp_frame] [false; false]) 1 0).
  - reflexivity.
  - vm_compute. lia.
  - lia.
  - reflexivity.
Defined.

(** Witness of X5: the largest reading. *)
Lemma raw_fan_val_to_rpm_bytes_witness :
  raw_fan_val_to_rpm 255 255 = 1966020.
Proof.
  refine (proj1 (raw_fan_val_to_rpm_bytes 255 255 _ _)); lia.
Defined.

(** Witness of X6: PWM channel 1 of a device whose channel 0 is owned. *)
Lemma write_bit_only_for_free_pwm_input_witness :
  hwmon_pwm = hwmon_pwm
  /\ 0 = hwmon_pwm_input linux_hwmon_attributes
  /\ index [true; false] 1 = Some false
  /\ mode_0644 = mode_0644.
Proof.
  apply (write_bit_only_for_free_pwm_input linux_hwmon_attributes unit
           (fresh_hwmon tt [true; false]) hwmon_pwm 0 1 mode_0644).
  - reflexivity.
  - vm_compute. discriminate.
Defined.

(** Witness of X7: state 300 on the duty-keeping MCU reads back as 44. *)
Lemma cooling_state_round_trip_witness :
  let s := fresh_hwmon (fun _ : Z => 0) [true; false] in
  outcome (iei_wt61p803_puzzle_get_cur_state wt61p803_commands _ echo_transport
             cooling_device_0
             (final (iei_wt61p803_puzzle_set_cur_state wt61p803_commands _
                       echo_transport cooling_device_0 300 s)))
  = Done (0, Some 44).
Proof.
  intros s.
  refine (proj2 (cooling_state_round_trip wt61p803_commands _ echo_transport
                   s cooling_device_0 300 _ _ _ _ _ _ _ _ _));
    reflexivity.
Defined.

(** Witness of X8: the second fan, bound after the hwmon registration. *)
Lemma cooling_binding_success_witness :
  fst (dt_enable fan_node_1 dt_start) = Done 0
  /\ index (thermal_cooling_dev_present
              (drvdata (snd (dt_enable fan_node_1 dt_start)))) 1
     = Some true
  /\ index (cdev (snd (dt_enable fan_node_1 dt_start))) 1
     = Some (Some (Build_iei_wt61p803_puzzle_thermal_cooling_device
                     (cstring "wt61p803_puzzle_1") 1 [0; 255])).
Proof.
  destruct (cooling_binding_success (Z -> Z) dt_node dt_api nat dt_host
              fan_node_1 dt_start (snd (dt_enable fan_node_1 dt_start))
              eq_refl eq_refl eq_refl)
    as (ch & levels & Hch & Hreg & Hlv & Hp & Hs & _).
  injection Hreg as <-. injection Hlv as <-.
  split; [reflexivity|]. split; [exact Hp|exact Hs].
Defined.

(** Witness of X9: scenario S6, [reg] 1 without cooling levels. *)
Lemma failed_binding_keeps_flag_witness :
  fst (dt_enable fan_node_1_no_levels dt_start) = Done (- EINVAL)
  /\ index (thermal_cooling_dev_present
              (drvdata (snd (dt_enable fan_node_1_no_levels dt_start)))) 1
     = Some true
  /\ cdev (snd (dt_enable fan_node_1_no_levels dt_start)) = [None; None].
Proof.
  destruct (failed_binding_keeps_flag (Z -> Z) dt_node dt_api nat dt_host
              fan_node_1_no_levels dt_start
              (snd (dt_enable fan_node_1_no_levels dt_start)) 1 (- EINVAL)
              eq_refl ltac:(discriminate) eq_refl)
    as (Hp & Hs & _).
  split; [reflexivity|]. split; [exact Hp|exact Hs].
Defined.

(** Witness of X10: 256 cooling levels count as none; a missing property,
    counted as [-EINVAL], has 234 bytes allocated and read. *)
Lemma levels_count_is_truncated_witness :
  fst (dt_enable fan_node_1_256_levels dt_start) = Done (- EINVAL)
  /\ In (HcKmallocArray 234 1)
        (calls (snd (dt_enable fan_node_1_no_levels dt_start))).
Proof.
  split.
  - apply (proj1 (levels_count_is_truncated (Z -> Z) dt_node dt_api nat
                    dt_host fan_node_1_256_levels dt_start
                    (snd (dt_enable fan_node_1_256_levels dt_start))
                    (fst (dt_enable fan_node_1_256_levels dt_start)) 1
                    eq_refl eq_refl ltac:(vm_compute; split; [discriminate|reflexivity]))).
    reflexivity.
  - apply (proj1 (proj2 (levels_count_is_truncated (Z -> Z) dt_node dt_api nat
                    dt_host fan_node_1_no_levels dt_start
                    (snd (dt_enable fan_node_1_no_levels dt_start))
                    (fst (dt_enable fan_node_1_no_levels dt_start)) 1
                    eq_refl eq_refl ltac:(vm_compute; split; [discriminate|reflexivity])))
           ltac:(vm_compute; discriminate) 6%nat eq_refl).
Defined.

(** Witness of X11: the node without cooling levels between two good ones
    ends probe with [-EINVAL]; the third node is not bound. *)
Lemma probe_stops_at_first_failure_witness :
  exists st,
    dt_probe [fan_node_0; fan_node_1_no_levels; fan_node_1] 8%nat
    = Probed (Done (- EINVAL)) st
    /\ length (cooling_registrations (calls st)) = 1%nat.
Proof.
  eexists. split.
  - apply (probe_stops_at_first_failure (Z -> Z) dt_node dt_api nat
             dt_host true 512 dt_mcu 8%nat [fan_node_0] [fan_node_1]
             fan_node_1_no_levels
             (snd (dt_enable fan_node_0 dt_start))
             (snd (dt_enable fan_node_1_no_levels
                     (snd (dt_enable fan_node_0 dt_start))))
             (- EINVAL) eq_refl eq_refl eq_refl).
    discriminate.
  - reflexivity.
Defined.

(** Witness of X12: scenario S4 with a second fan. *)
Lemma probe_success_binds_every_child_witness :
  exists st,
    dt_probe [fan_node_0; fan_node_1] 8%nat = Probed (Done 0) st
    /\ length (cooling_registrations (calls st)) = 2%nat
    /\ thermal_cooling_dev_present (drvdata st) = [true; true].
Proof.
  eexists. split; [reflexivity|].
  split; [|reflexivity].
  apply (proj1 (proj2
           (probe_success_binds_every_child wt61p803_commands
              linux_hwmon_attributes (Z -> Z) echo_transport
              dt_node dt_api nat dt_host true 512 dt_mcu 8%nat
              [fan_node_0; fan_node_1] _ eq_refl eq_refl))).
Defined.

(** Witness of X14: a node with [reg] 2. *)
Lemma unchecked_reg_is_undefined_witness :
  dt_enable fan_node_2 dt_start = (Undefined, dt_start).
Proof.
  apply (unchecked_reg_is_undefined (Z -> Z) dt_node dt_api nat dt_host
           fan_node_2 dt_start 2).
  - reflexivity.
  - vm_compute. discriminate.
Defined.
